(** * Payment customization: the checkout decision function and the
      admin endpoint that registers it

    A shallow embedding of the two source files of the repository:

    - the payment customization function (the default export that maps the
      function input to a list of operations), and
    - the handler of [POST /api/paymentCustomization/create] of the Express
      backend in [web/index.js], with its helper [handleUserError].

    The function runs on values produced by the JavaScript built-ins
    [JSON.parse], [parseFloat], [String.prototype.includes] and the implicit
    conversions of the [>] operator, so the first half of the file embeds
    those built-ins as ECMA-262 defines them.  Numbers are IEEE 754 binary64
    values, carried as [spec_float]; strings are carried as their UTF-8
    bytes, and read as UTF-16 code units where JavaScript searches or
    counts them. *)

From Stdlib Require Import ZArith NArith List String Ascii Bool Lia.
From Stdlib Require Import Floats.SpecFloat.
Import ListNotations.

Local Open Scope string_scope.
Local Open Scope Z_scope.

(** ** Numbers *)

Module Number.

Definition number : Type := spec_float.

Definition prec : Z := 53.
Definition emax : Z := 1024.

Definition NaN : number := S754_nan.
Definition zero : number := S754_zero false.

(** [a > b], [a < b] and the other comparisons are false as soon as one
    side is NaN. *)
Definition gt (a b : number) : bool := SFltb b a.
Definition lt (a b : number) : bool := SFltb a b.
Definition le (a b : number) : bool := SFleb a b.

(** ToBoolean on a number: +0, -0 and NaN are falsy. *)
Definition to_boolean (x : number) : bool :=
  match x with
  | S754_zero _ | S754_nan => false
  | _ => true
  end.

(** The number nearest to [m * 2^e], ties to even. *)
Definition of_binary (sign : bool) (m : N) (e : Z) : number :=
  match m with
  | N0 => S754_zero sign
  | Npos p => binary_round prec emax sign p e
  end.

(** The number nearest to [m * 10^e], ties to even: the rounding that
    turns the mathematical value of a decimal literal into a Number.  With
    [m >= 1], an exponent above 400 is beyond the largest Number; and as
    [m < 10^(log2 m + 1)], an exponent under [-400 - (log2 m + 1)] is
    below half the smallest one.  The other values are rounded from the
    integer [m * 10^e] or from the quotient of [m] by [10^(-e)]. *)
Definition of_decimal (sign : bool) (m : N) (e : Z) : number :=
  match m with
  | N0 => S754_zero sign
  | Npos p =>
      if 400 <? e then S754_infinity sign
      else if e + Z.of_N (N.log2 m) + 1 <? -400 then S754_zero sign
      else if 0 <=? e
      then binary_round prec emax sign (Z.to_pos (Zpos p * 10 ^ e)) 0
      else
        let '(q, e', l) :=
          SFdiv_core_binary prec emax (Zpos p) 0 (10 ^ (- e)) 0 in
        binary_round_aux prec emax sign q e' l
  end.

(** The length of an array or of a string: an integer far below [2^53],
    hence a Number exactly, with its mantissa aligned on 53 bits. *)
Definition of_length (n : nat) : number :=
  match N.of_nat n with
  | N0 => zero
  | Npos p =>
      let '(m, e) := shl_align p 0 (Zpos (digits2_pos p) - prec) in
      S754_finite false m e
  end.

End Number.

(** ** JSON values

    What [JSON.parse] returns.  The fields of an object are kept in source
    order, duplicates included; a lookup takes the last one, as the later
    definition of a key replaces the earlier one. *)

#[local] Set Warnings "-register-all".

Inductive json : Type :=
| JNull
| JBool (b : bool)
| JNum (x : Number.number)
| JStr (s : string)
| JArr (items : list json)
| JObj (fields : list (string * json)).

Fixpoint assoc_last (fields : list (string * json)) (key : string)
  : option json :=
  match fields with
  | [] => None
  | (k, v) :: rest =>
      match assoc_last rest key with
      | Some w => Some w
      | None => if String.eqb k key then Some v else None
      end
  end.

Definition has_own (fields : list (string * json)) (key : string) : bool :=
  match assoc_last fields key with
  | Some _ => true
  | None => false
  end.

(** ** Completions: a computation returns a value or throws

    [GraphqlQueryError] is the error class of the Shopify API client, with
    its [response] property; [Error] stands for every other error. *)

Inductive js_error : Type :=
| SyntaxError
| TypeError
| GraphqlQueryError (response : option json)
| Error (message : string).

Inductive completion (A : Type) : Type :=
| Normal (a : A)
| Throw (e : js_error).

Arguments Normal {A} a.
Arguments Throw {A} e.

Definition bind {A B : Type} (c : completion A) (k : A -> completion B)
  : completion B :=
  match c with
  | Normal a => k a
  | Throw e => Throw e
  end.

Notation "x <- c ;; k" := (bind c (fun x => k))
  (at level 61, c at next level, right associativity).

(** ** Strings *)

Module Str.

Definition code (c : ascii) : N := N_of_ascii c.

Fixpoint rev_append (s acc : string) : string :=
  match s with
  | EmptyString => acc
  | String c r => rev_append r (String c acc)
  end.

Definition rev (s : string) : string := rev_append s EmptyString.

(** *** Code units

    A JavaScript string is a sequence of UTF-16 code units, and the string
    methods that search and count work on these units.  A string is held
    here as the UTF-8 bytes of its characters, a surrogate that stands
    alone taking the three bytes of its code; [units] gives the code units
    back.  The units of a character are computed at its first byte, from
    the bytes that follow it: one unit for a character of one, two or three
    bytes, the two surrogates for a character of four.  The following bytes
    add nothing on their own. *)

(** The six bits carried by the byte at offset [i] of [r]. *)
Definition continuation (i : nat) (r : string) : N :=
  match String.get i r with
  | Some c => (code c mod 64)%N
  | None => 0%N
  end.

Fixpoint units (s : string) : list N :=
  match s with
  | EmptyString => []
  | String c r =>
      let n := code c in
      if (n <? 128)%N then n :: units r
      else if (n <? 192)%N then units r
      else if (n <? 224)%N
      then ((n - 192) * 64 + continuation 0 r)%N :: units r
      else if (n <? 240)%N
      then ((n - 224) * 4096 + continuation 0 r * 64
            + continuation 1 r)%N :: units r
      else
        let point :=
          ((n - 240) * 262144 + continuation 0 r * 4096
           + continuation 1 r * 64 + continuation 2 r - 65536)%N in
        (55296 + point / 1024)%N :: (56320 + point mod 1024)%N :: units r
  end.

(** The units of [search] are the first units of [l]. *)
Fixpoint starts_with (l search : list N) {struct search} : bool :=
  match search, l with
  | [], _ => true
  | _ :: _, [] => false
  | u :: search', v :: l' => (u =? v)%N && starts_with l' search'
  end.

(** The units of [search] occur in [l], one after the other. *)
Fixpoint occurs (l search : list N) : bool :=
  starts_with l search
  || match l with
     | [] => false
     | _ :: r => occurs r search
     end.

(** [String.prototype.includes] at position 0: the code units of [search]
    occur in those of [s]. *)
Definition includes (s search : string) : bool :=
  occurs (units s) (units search).

(** *** White space

    [WhiteSpace] and [LineTerminator] of ECMA-262: TAB, VT, FF, SP, LF and
    CR in one byte; NBSP in two; U+1680, U+2000..U+200A, U+2028, U+2029,
    U+202F, U+205F, U+3000 and U+FEFF in three. *)

Definition is_ws1 (a : ascii) : bool :=
  let n := code a in
  ((9 <=? n) && (n <=? 13) || (n =? 32))%N.

Definition is_ws2 (a b : ascii) : bool :=
  ((code a =? 194) && (code b =? 160))%N.

Definition is_ws3 (a b c : ascii) : bool :=
  let x := code a in
  let y := code b in
  let z := code c in
  ((x =? 225) && (y =? 154) && (z =? 128)
   || (x =? 226) && (y =? 128)
      && ((128 <=? z) && (z <=? 138) || (z =? 168) || (z =? 169)
          || (z =? 175))
   || (x =? 226) && (y =? 129) && (z =? 159)
   || (x =? 227) && (y =? 128) && (z =? 128)
   || (x =? 239) && (y =? 187) && (z =? 191))%N.

Fixpoint trim_start (s : string) : string :=
  match s with
  | EmptyString => s
  | String a r1 =>
      if is_ws1 a then trim_start r1
      else
        match r1 with
        | EmptyString => s
        | String b r2 =>
            if is_ws2 a b then trim_start r2
            else
              match r2 with
              | EmptyString => s
              | String c r3 => if is_ws3 a b c then trim_start r3 else s
              end
        end
  end.

(** The same scan on the reversed string, where the bytes of a character
    come last byte first. *)
Fixpoint trim_start_rev (s : string) : string :=
  match s with
  | EmptyString => s
  | String a r1 =>
      if is_ws1 a then trim_start_rev r1
      else
        match r1 with
        | EmptyString => s
        | String b r2 =>
            if is_ws2 b a then trim_start_rev r2
            else
              match r2 with
              | EmptyString => s
              | String c r3 =>
                  if is_ws3 c b a then trim_start_rev r3 else s
              end
        end
  end.

Definition trim_end (s : string) : string := rev (trim_start_rev (rev s)).

Definition trim (s : string) : string := trim_end (trim_start s).

(** *** Digits *)

Definition digit_val (c : ascii) : option N :=
  let n := code c in
  if ((48 <=? n) && (n <=? 57))%N then Some (n - 48)%N else None.

Definition hex_val (c : ascii) : option N :=
  let n := code c in
  if ((48 <=? n) && (n <=? 57))%N then Some (n - 48)%N
  else if ((65 <=? n) && (n <=? 70))%N then Some (n - 55)%N
  else if ((97 <=? n) && (n <=? 102))%N then Some (n - 87)%N
  else None.

(** The longest prefix of [s] made of digits of the base, as the list of
    their values, and what follows it. *)
Fixpoint span_digits (val : ascii -> option N) (s : string)
  : list N * string :=
  match s with
  | EmptyString => ([], s)
  | String c r =>
      match val c with
      | Some d => let '(ds, rest) := span_digits val r in (d :: ds, rest)
      | None => ([], s)
      end
  end.

Definition digits_value (base : N) (ds : list N) : N :=
  fold_left (fun acc d => (acc * base + d)%N) ds 0%N.

(** The decimal digits of a natural number, most significant first. *)
Fixpoint pos_digits (fuel : nat) (n : N) (acc : string) : string :=
  match fuel with
  | O => acc
  | S fuel' =>
      let acc' := String (ascii_of_N (48 + n mod 10)) acc in
      if (n / 10 =? 0)%N then acc' else pos_digits fuel' (n / 10)%N acc'
  end.

Definition of_N (n : N) : string :=
  pos_digits (S (N.to_nat (N.log2 n))) n EmptyString.

Fixpoint repeat (c : ascii) (n : nat) : string :=
  match n with
  | O => EmptyString
  | S n' => String c (repeat c n')
  end.

End Str.

(** ** Numeric strings *)

Definition scan_sign (s : string) : bool * string :=
  match s with
  | String "-" r => (true, r)
  | String "+" r => (false, r)
  | _ => (false, s)
  end.

Fixpoint strip_prefix (p s : string) : option string :=
  match p, s with
  | EmptyString, _ => Some s
  | String a p', String b s' =>
      if Ascii.eqb a b then strip_prefix p' s' else None
  | String _ _, EmptyString => None
  end.

(** [ExponentPart]: [e] or [E], an optional sign and at least one digit.
    Without the digits nothing is consumed. *)
Definition scan_exponent (s : string) : Z * string :=
  match s with
  | String c r =>
      if Ascii.eqb c "e" || Ascii.eqb c "E" then
        let '(negative, r1) := scan_sign r in
        let '(ds, r2) := Str.span_digits Str.digit_val r1 in
        match ds with
        | [] => (0, s)
        | _ :: _ =>
            let v := Z.of_N (Str.digits_value 10 ds) in
            (if negative then - v else v, r2)
        end
      else (0, s)
  | EmptyString => (0, s)
  end.

(** The longest prefix of [s] that is a [StrUnsignedDecimalLiteral], as the
    Number it denotes under the sign already read, and the rest of [s]. *)
Definition scan_unsigned (sign : bool) (s : string)
  : option (Number.number * string) :=
  match strip_prefix "Infinity" s with
  | Some r => Some (S754_infinity sign, r)
  | None =>
      let '(ip, r1) := Str.span_digits Str.digit_val s in
      let '(fp, r2) :=
        match r1 with
        | String "." r => Str.span_digits Str.digit_val r
        | _ => ([], r1)
        end in
      match ip, fp with
      | [], [] => None
      | _, _ =>
          let '(e, r3) := scan_exponent r2 in
          Some (Number.of_decimal sign (Str.digits_value 10 (ip ++ fp))
                  (e - Z.of_nat (List.length fp)), r3)
      end
  end.

Definition scan_decimal (s : string) : option (Number.number * string) :=
  let '(sign, r) := scan_sign s in scan_unsigned sign r.

(** [parseFloat]: skip leading white space, take the longest prefix that is
    a [StrDecimalLiteral]; NaN when there is none. *)
Definition parseFloat (s : string) : Number.number :=
  match scan_decimal (Str.trim_start s) with
  | Some (v, _) => v
  | None => Number.NaN
  end.

Definition octal_val (c : ascii) : option N :=
  match Str.digit_val c with
  | Some d => if (d <? 8)%N then Some d else None
  | None => None
  end.

Definition binary_val (c : ascii) : option N :=
  match Str.digit_val c with
  | Some d => if (d <? 2)%N then Some d else None
  | None => None
  end.

(** [NonDecimalIntegerLiteral]: [0x], [0o] or [0b] and digits of the base,
    with nothing after them. *)
Definition scan_non_decimal (s : string) : option Number.number :=
  match s with
  | String "0" (String x r) =>
      let radix :=
        if Ascii.eqb x "x" || Ascii.eqb x "X" then Some (16%N, Str.hex_val)
        else if Ascii.eqb x "o" || Ascii.eqb x "O" then Some (8%N, octal_val)
        else if Ascii.eqb x "b" || Ascii.eqb x "B" then Some (2%N, binary_val)
        else None in
      match radix with
      | Some (base, val) =>
          match Str.span_digits val r with
          | (d :: ds, EmptyString) =>
              Some (Number.of_binary false
                      (Str.digits_value base (d :: ds)) 0)
          | _ => None
          end
      | None => None
      end
  | _ => None
  end.

(** [StringToNumber], the conversion ToNumber applies to a string: white
    space is trimmed on both sides, the empty string is +0, and the whole of
    what remains has to be a numeric literal. *)
Definition StringToNumber (s : string) : Number.number :=
  let t := Str.trim s in
  match t with
  | EmptyString => Number.zero
  | _ =>
      match scan_decimal t with
      | Some (v, EmptyString) => v
      | _ =>
          match scan_non_decimal t with
          | Some v => v
          | None => Number.NaN
          end
      end
  end.

(** ** Number::toString (radix 10)

    For a finite non-zero [x] the digits are those of the integers [n], [k]
    and [s] of ECMA-262 with [k >= 1], [10^(k-1) <= s < 10^k], the Number
    for [s * 10^(n-k)] equal to [x], and [k] as small as possible; among
    several [s] the one closest to [x] is taken, the even one on a tie. *)

Section NumberToString.

(** The value is [num / den], positive. *)
Variables (num den : N).
Variable x : Number.number.

(** Least [j >= 1] with [num * 10^j >= den], for a value below one. *)
Fixpoint first_digit_shift (fuel : nat) (j : N) : N :=
  match fuel with
  | O => j
  | S fuel' =>
      if (den <=? num * 10 ^ j)%N then j else first_digit_shift fuel' (j + 1)%N
  end.

(** [n] with [10^(n-1) <= num/den < 10^n]. *)
Definition magnitude : Z :=
  if (den <=? num)%N
  then Z.of_nat (String.length (Str.of_N (num / den)))
  else 1 - Z.of_N (first_digit_shift (N.to_nat (N.log2 den)) 1).

(** With [k] digits: the floor [lo] of [num/den * 10^(k-n)], and how the
    value compares with the midpoint of [lo] and [lo + 1]. *)
Definition scaled (n : Z) (k : Z) : N * comparison :=
  let p := k - n in
  let a := if 0 <=? p then (num * 10 ^ Z.to_N p)%N else num in
  let b := if 0 <=? p then den else (den * 10 ^ Z.to_N (- p))%N in
  let lo := (a / b)%N in
  (lo, (2 * a ?= (2 * lo + 1) * b)%N).

Definition round_trips (n k : Z) (s : N) : bool :=
  SFeqb (Number.of_decimal false s (n - k)) x.

Definition candidate (n k : Z) : option N :=
  let '(lo, side) := scaled n k in
  let hi := (lo + 1)%N in
  match round_trips n k lo, round_trips n k hi with
  | true, true =>
      match side with
      | Lt => Some lo
      | Gt => Some hi
      | Eq => Some (if N.even lo then lo else hi)
      end
  | true, false => Some lo
  | false, true => Some hi
  | false, false => None
  end.

(** The first [k] of [ks] that has a candidate, with it. *)
Fixpoint shortest (n : Z) (ks : list Z) : option (Z * N) :=
  match ks with
  | [] => None
  | k :: ks' =>
      match candidate n k with
      | Some s => Some (k, s)
      | None => shortest n ks'
      end
  end.

(** The digits of [s] and the exponent [n]; 17 digits always suffice for
    a binary64 value. *)
Definition shortest_digits : string * Z :=
  let n := magnitude in
  match shortest n
          [1; 2; 3; 4; 5; 6; 7; 8; 9; 10; 11; 12; 13; 14; 15; 16; 17] with
  | Some (k, s) =>
      if (s =? 10 ^ Z.to_N k)%N then ("1", n + 1) else (Str.of_N s, n)
  | None => (Str.of_N (fst (scaled n 17)), n)
  end.

End NumberToString.

Definition exponent_suffix (e : Z) : string :=
  "e" ++ (if e <? 0 then "-" else "+") ++ Str.of_N (Z.abs_N e).

Definition format_digits (ds : string) (n : Z) : string :=
  let k := Z.of_nat (String.length ds) in
  if (k <=? n) && (n <=? 21) then
    ds ++ Str.repeat "0" (Z.to_nat (n - k))
  else if (0 <? n) && (n <=? 21) then
    substring 0 (Z.to_nat n) ds ++ "."
    ++ substring (Z.to_nat n) (Z.to_nat (k - n)) ds
  else if (-6 <? n) && (n <=? 0) then
    "0." ++ Str.repeat "0" (Z.to_nat (- n)) ++ ds
  else if k =? 1 then
    ds ++ exponent_suffix (n - 1)
  else
    substring 0 1 ds ++ "." ++ substring 1 (Z.to_nat (k - 1)) ds
    ++ exponent_suffix (n - 1).

Definition Number_toString (x : Number.number) : string :=
  match x with
  | S754_nan => "NaN"
  | S754_zero _ => "0"
  | S754_infinity s => if s then "-Infinity" else "Infinity"
  | S754_finite s m e =>
      let num := if 0 <=? e then (Npos m * 2 ^ Z.to_N e)%N else Npos m in
      let den := if 0 <=? e then 1%N else (2 ^ Z.to_N (- e))%N in
      let '(ds, n) := shortest_digits num den (S754_finite false m e) in
      (if s then "-" else EmptyString) ++ format_digits ds n
  end.

(** ** Reading and converting JSON values *)

(** [v.name] for a [name] that no built-in prototype and no exotic object
    defines, as [paymentMethodName] and [cartTotal] are: reading it from
    [null] throws, an object yields its own property, and every other value
    yields [undefined], which is [None]. *)
Definition get_member (v : json) (name : string) : completion (option json) :=
  match v with
  | JNull => Throw TypeError
  | JObj fields => Normal (assoc_last fields name)
  | _ => Normal None
  end.

(** ToBoolean; [None] is [undefined]. *)
Definition ToBoolean (v : option json) : bool :=
  match v with
  | None => false
  | Some JNull => false
  | Some (JBool b) => b
  | Some (JNum x) => Number.to_boolean x
  | Some (JStr s) => negb (String.eqb s EmptyString)
  | Some (JArr _) => true
  | Some (JObj _) => true
  end.

(** ToString on a JSON value.  An array converts through
    [Array.prototype.join], where [null] elements give the empty string.
    An object converts through [Object.prototype.toString] unless it has an
    own [toString] property: that one is not callable, [valueOf] gives back
    the object, and the conversion throws. *)
Fixpoint ToString_json (v : json) : completion string :=
  match v with
  | JNull => Normal "null"
  | JBool b => Normal (if b then "true" else "false")
  | JNum x => Normal (Number_toString x)
  | JStr s => Normal s
  | JArr items =>
      (fix join (l : list json) : completion string :=
         match l with
         | [] => Normal EmptyString
         | x :: r =>
             s <- match x with
                  | JNull => Normal EmptyString
                  | _ => ToString_json x
                  end ;;
             match r with
             | [] => Normal s
             | _ :: _ => t <- join r ;; Normal (s ++ "," ++ t)
             end
         end) items
  | JObj fields =>
      if has_own fields "toString" then Throw TypeError
      else Normal "[object Object]"
  end.

(** ToNumber on a JSON value; arrays and objects go through their
    string. *)
Definition ToNumber_json (v : json) : completion Number.number :=
  match v with
  | JNull => Normal Number.zero
  | JBool b => Normal (if b then Number.of_binary false 1 0 else Number.zero)
  | JNum x => Normal x
  | JStr s => Normal (StringToNumber s)
  | JArr _ | JObj _ => s <- ToString_json v ;; Normal (StringToNumber s)
  end.

(** ** JSON.parse

    The text is cut into tokens by a scanner that reads one byte at a time,
    and the tokens are assembled by a parser with an explicit stack of the
    arrays and objects still open.  Two values never follow one another in
    a JSON text without punctuation between them, so a number or a literal
    name extends as far as its characters go. *)

Inductive token : Type :=
| TLBrace | TRBrace | TLBracket | TRBracket | TColon | TComma
| TValue (v : json)
| TString (s : string).

(** UTF-8 bytes of a code point, last byte first. *)
Definition utf8_rev (u : N) : list ascii :=
  let b (n : N) := ascii_of_N n in
  let cont (n : N) := b (128 + n mod 64)%N in
  (if u <? 128 then [b u]
   else if u <? 2048 then [cont u; b (192 + u / 64)]
   else if u <? 65536 then [cont u; cont (u / 64); b (224 + u / 4096)]
   else [cont u; cont (u / 64); cont (u / 4096); b (240 + u / 262144)])%N.

Definition push_code (u : N) (acc : string) : string :=
  fold_right String acc (utf8_rev u).

Definition is_high_surrogate (u : N) : bool :=
  ((55296 <=? u) && (u <=? 56319))%N.

Definition is_low_surrogate (u : N) : bool :=
  ((56320 <=? u) && (u <=? 57343))%N.

(** The bytes of a code point, first byte first. *)
Definition utf8 (u : N) : string :=
  fold_left (fun acc c => String c acc) (utf8_rev u) EmptyString.

(** [String.fromCharCode]: the string of a sequence of code units.  A
    leading surrogate followed by a trailing one is the character of four
    bytes that the two stand for; any other unit is a character of its
    own. *)
Fixpoint String_fromCharCode (l : list N) : string :=
  match l with
  | [] => EmptyString
  | h :: r =>
      match r with
      | t :: r' =>
          if is_high_surrogate h && is_low_surrogate t
          then utf8 (65536 + (h - 55296) * 1024 + (t - 56320))
               ++ String_fromCharCode r'
          else utf8 h ++ String_fromCharCode r
      | [] => utf8 h
      end
  end.

(** The characters of a string under construction, last first, and a
    leading surrogate of a [\u] escape that waits for its trailing one. *)
Record partial_string : Type :=
  { chars_rev : string; pending : option N }.

Definition flush (p : partial_string) : string :=
  match pending p with
  | Some h => push_code h (chars_rev p)
  | None => chars_rev p
  end.

Definition add_byte (c : ascii) (p : partial_string) : partial_string :=
  {| chars_rev := String c (flush p); pending := None |}.

Definition add_unit (u : N) (p : partial_string) : partial_string :=
  match pending p with
  | Some h =>
      if is_low_surrogate u
      then {| chars_rev :=
                push_code (65536 + (h - 55296) * 1024 + (u - 56320))%N
                  (chars_rev p);
              pending := None |}
      else if is_high_surrogate u
      then {| chars_rev := flush p; pending := Some u |}
      else {| chars_rev := push_code u (flush p); pending := None |}
  | None =>
      if is_high_surrogate u
      then {| chars_rev := chars_rev p; pending := Some u |}
      else {| chars_rev := push_code u (chars_rev p); pending := None |}
  end.

Inductive scan_state : Type :=
| InText
| InString (p : partial_string)
| InEscape (p : partial_string)
| InUnicode (p : partial_string) (digits : list N)
| InNumber (lexeme_rev : string)
| InName (lexeme_rev : string).

(** A JSON number: [-]? then [0] or a digit string without leading zero,
    an optional fraction with at least one digit, an optional exponent. *)
Definition json_number (lexeme : string) : option Number.number :=
  let '(sign, r0) :=
    match lexeme with
    | String "-" r => (true, r)
    | _ => (false, lexeme)
    end in
  let '(ip, r1) := Str.span_digits Str.digit_val r0 in
  let int_ok :=
    match ip with
    | [] => false
    | [_] => true
    | d :: _ :: _ => negb (d =? 0)%N
    end in
  let '(fp, r2, frac_ok) :=
    match r1 with
    | String "." r =>
        let '(fp, r2) := Str.span_digits Str.digit_val r in
        (fp, r2, match fp with [] => false | _ :: _ => true end)
    | _ => ([], r1, true)
    end in
  let '(e, r3) := scan_exponent r2 in
  match r3 with
  | EmptyString =>
      if int_ok && frac_ok
      then Some (Number.of_decimal sign (Str.digits_value 10 (ip ++ fp))
                   (e - Z.of_nat (List.length fp)))
      else None
  | String _ _ => None
  end.

Definition json_name (lexeme : string) : option json :=
  if String.eqb lexeme "null" then Some JNull
  else if String.eqb lexeme "true" then Some (JBool true)
  else if String.eqb lexeme "false" then Some (JBool false)
  else None.

Definition is_number_char (c : ascii) : bool :=
  match Str.digit_val c with
  | Some _ => true
  | None =>
      Ascii.eqb c "-" || Ascii.eqb c "+" || Ascii.eqb c "."
      || Ascii.eqb c "e" || Ascii.eqb c "E"
  end.

Definition is_name_char (c : ascii) : bool :=
  ((97 <=? Str.code c) && (Str.code c <=? 122))%N.

Definition is_json_space (c : ascii) : bool :=
  let n := Str.code c in
  ((n =? 9) || (n =? 10) || (n =? 13) || (n =? 32))%N.

(** The token that ends when the scanner leaves a number or a name. *)
Definition close_lexeme (st : scan_state) : completion (list token) :=
  match st with
  | InText => Normal []
  | InNumber l =>
      match json_number (Str.rev l) with
      | Some x => Normal [TValue (JNum x)]
      | None => Throw SyntaxError
      end
  | InName l =>
      match json_name (Str.rev l) with
      | Some v => Normal [TValue v]
      | None => Throw SyntaxError
      end
  | _ => Throw SyntaxError
  end.

Definition simple_escape (c : ascii) : option ascii :=
  if (Str.code c =? 34)%N then Some c
  else if Ascii.eqb c "\" then Some c
  else if Ascii.eqb c "/" then Some c
  else if Ascii.eqb c "b" then Some (ascii_of_N 8)
  else if Ascii.eqb c "f" then Some (ascii_of_N 12)
  else if Ascii.eqb c "n" then Some (ascii_of_N 10)
  else if Ascii.eqb c "r" then Some (ascii_of_N 13)
  else if Ascii.eqb c "t" then Some (ascii_of_N 9)
  else None.

(** One byte read between tokens: the tokens it completes and the state it
    leaves the scanner in. *)
Definition text_step (c : ascii) : completion (list token * scan_state) :=
  let start := {| chars_rev := EmptyString; pending := None |} in
  if is_json_space c then Normal ([], InText)
  else if Ascii.eqb c "{" then Normal ([TLBrace], InText)
  else if Ascii.eqb c "}" then Normal ([TRBrace], InText)
  else if Ascii.eqb c "[" then Normal ([TLBracket], InText)
  else if Ascii.eqb c "]" then Normal ([TRBracket], InText)
  else if Ascii.eqb c ":" then Normal ([TColon], InText)
  else if Ascii.eqb c "," then Normal ([TComma], InText)
  else if (Str.code c =? 34)%N then Normal ([], InString start)
  else if Ascii.eqb c "-" then Normal ([], InNumber (String c EmptyString))
  else
    match Str.digit_val c with
    | Some _ => Normal ([], InNumber (String c EmptyString))
    | None =>
        if is_name_char c then Normal ([], InName (String c EmptyString))
        else Throw SyntaxError
    end.

Fixpoint scan (st : scan_state) (s : string) : completion (list token) :=
  match s with
  | EmptyString => close_lexeme st
  | String c r =>
      let leave (_ : unit) :=
        done <- close_lexeme st ;;
        next <- text_step c ;;
        ts <- scan (snd next) r ;;
        Normal (done ++ fst next ++ ts)%list in
      match st with
      | InText => leave tt
      | InNumber l =>
          if is_number_char c then scan (InNumber (String c l)) r
          else leave tt
      | InName l =>
          if is_name_char c then scan (InName (String c l)) r
          else leave tt
      | InString p =>
          if (Str.code c =? 34)%N then
            ts <- scan InText r ;;
            Normal (TString (Str.rev (flush p)) :: ts)
          else if Ascii.eqb c "\" then scan (InEscape p) r
          else if (Str.code c <? 32)%N then Throw SyntaxError
          else scan (InString (add_byte c p)) r
      | InEscape p =>
          if Ascii.eqb c "u" then scan (InUnicode p []) r
          else
            match simple_escape c with
            | Some d => scan (InString (add_byte d p)) r
            | None => Throw SyntaxError
            end
      | InUnicode p ds =>
          match Str.hex_val c with
          | Some d =>
              match ds with
              | [_; _; _] =>
                  scan (InString
                          (add_unit (Str.digits_value 16 (ds ++ [d])%list) p)) r
              | _ => scan (InUnicode p (ds ++ [d])%list) r
              end
          | None => Throw SyntaxError
          end
      end
  end.

(** An array or an object that is open while one of its values is read. *)
Inductive frame : Type :=
| FArr (items_rev : list json)
| FObj (fields_rev : list (string * json)) (key : string).

Inductive parse_mode : Type :=
| WantValue
| HaveValue (v : json)
| WantKey (fields_rev : list (string * json))
| WantColon (fields_rev : list (string * json)) (key : string).

Fixpoint parse (m : parse_mode) (stack : list frame) (ts : list token)
  : completion json :=
  match m with
  | WantValue =>
      match ts with
      | TValue v :: r => parse (HaveValue v) stack r
      | TString s :: r => parse (HaveValue (JStr s)) stack r
      | TLBracket :: TRBracket :: r => parse (HaveValue (JArr [])) stack r
      | TLBracket :: r => parse WantValue (FArr [] :: stack) r
      | TLBrace :: TRBrace :: r => parse (HaveValue (JObj [])) stack r
      | TLBrace :: r => parse (WantKey []) stack r
      | _ => Throw SyntaxError
      end
  | WantKey fields =>
      match ts with
      | TString k :: r => parse (WantColon fields k) stack r
      | _ => Throw SyntaxError
      end
  | WantColon fields k =>
      match ts with
      | TColon :: r => parse WantValue (FObj fields k :: stack) r
      | _ => Throw SyntaxError
      end
  | HaveValue v =>
      match stack, ts with
      | [], [] => Normal v
      | FArr items :: st, TComma :: r =>
          parse WantValue (FArr (v :: items) :: st) r
      | FArr items :: st, TRBracket :: r =>
          parse (HaveValue (JArr (List.rev (v :: items)))) st r
      | FObj fields k :: st, TComma :: r =>
          parse (WantKey ((k, v) :: fields)) st r
      | FObj fields k :: st, TRBrace :: r =>
          parse (HaveValue (JObj (List.rev ((k, v) :: fields)))) st r
      | _, _ => Throw SyntaxError
      end
  end.

Definition JSON_parse (text : string) : completion json :=
  ts <- scan InText text ;;
  parse WantValue [] ts.

(** ** Values and their conversions

    A value read from the configuration is a JSON value or [undefined],
    which is [None]. *)

Definition jsvalue : Type := option json.

Definition ToString (v : jsvalue) : completion string :=
  match v with
  | None => Normal "undefined"
  | Some j => ToString_json j
  end.

Definition ToNumber (v : jsvalue) : completion Number.number :=
  match v with
  | None => Normal Number.NaN
  | Some j => ToNumber_json j
  end.

(** [x > v] for a Number [x]: the right operand is converted to a Number
    and the comparison is false when either side is NaN. *)
Definition greater_than (x : Number.number) (v : jsvalue) : completion bool :=
  y <- ToNumber v ;;
  Normal (Number.gt x y).

(** [s.includes(v)]: the argument is converted to a string. *)
Definition String_includes (s : string) (v : jsvalue) : completion bool :=
  search <- ToString v ;;
  Normal (Str.includes s search).

(** [Array.prototype.find] with a predicate that may throw. *)
Fixpoint Array_find {A : Type} (predicate : A -> completion bool)
  (l : list A) : completion (option A) :=
  match l with
  | [] => Normal None
  | x :: r =>
      b <- predicate x ;;
      if b then Normal (Some x) else Array_find predicate r
  end.

(** ** Effects

    The code of the repository runs in a world [W] that it may change (the
    console, the requests sent, the HTTP response) and may throw. *)

Definition eff (W A : Type) : Type := W -> W * completion A.

Definition ret {W A : Type} (a : A) : eff W A := fun w => (w, Normal a).

Definition throw {W A : Type} (e : js_error) : eff W A :=
  fun w => (w, Throw e).

Definition lift {W A : Type} (c : completion A) : eff W A := fun w => (w, c).

Definition ebind {W A B : Type} (c : eff W A) (k : A -> eff W B) : eff W B :=
  fun w =>
    match c w with
    | (w', Normal a) => k a w'
    | (w', Throw e) => (w', Throw e)
    end.

Notation "x <~ c ;; k" := (ebind c (fun x => k))
  (at level 61, c at next level, right associativity).
Notation "c ;;; k" := (ebind c (fun _ => k))
  (at level 61, right associativity).

(** ** The payment customization function *)

Module PaymentCustomization.

(** *** The function input and result (the generated API types) *)

Record Metafield : Type := { value : option string }.

Record PaymentCustomization : Type := { metafield : option Metafield }.

Record MoneyV2 : Type := { amount : option string }.

Record CartCost : Type := { totalAmount : MoneyV2 }.

Record Cart : Type := { cost : CartCost }.

Record PaymentMethod : Type := { id : string; name : string }.

Record InputQuery : Type :=
  { paymentCustomization : option PaymentCustomization;
    cart : Cart;
    paymentMethods : list PaymentMethod }.

Record MoveOperation : Type := { index : Z; paymentMethodId : string }.

Inductive Operation : Type :=
| move (m : MoveOperation).

Record FunctionResult : Type := { operations : list Operation }.

Definition NO_CHANGES : FunctionResult := {| operations := [] |}.

(** The lines written by [console.error]. *)
Definition Console : Type := list string.

Definition console_error (line : string) : eff Console unit :=
  fun w => ((w ++ [line])%list, Normal tt).

(** [input?.paymentCustomization?.metafield?.value ?? "{}"] *)
Definition metafield_value (input : InputQuery) : string :=
  match paymentCustomization input with
  | Some pc =>
      match metafield pc with
      | Some mf =>
          match value mf with
          | Some v => v
          | None => "{}"
          end
      | None => "{}"
      end
  | None => "{}"
  end.

(** [input.cart.cost.totalAmount.amount ?? "0.0"] *)
Definition amount_text (input : InputQuery) : string :=
  match amount (totalAmount (cost (cart input))) with
  | Some a => a
  | None => "0.0"
  end.

Definition too_high : string :=
  "Cart total is too high enough, no need to move the payment method.".

(** The default export. *)
Definition default_export (input : InputQuery)
  : eff Console FunctionResult :=
  configuration <~ lift (JSON_parse (metafield_value input)) ;;
  configured_name <~ lift (get_member configuration "paymentMethodName") ;;
  if negb (ToBoolean configured_name) then ret NO_CHANGES
  else
    configured_total <~ lift (get_member configuration "cartTotal") ;;
    if negb (ToBoolean configured_total) then ret NO_CHANGES
    else
      let cartTotal := parseFloat (amount_text input) in
      exceeds <~ lift (greater_than cartTotal configured_total) ;;
      if exceeds then
        console_error too_high ;;;
        ret NO_CHANGES
      else
        movePaymentMethod <~
          lift (Array_find
                  (fun method => String_includes (name method) configured_name)
                  (paymentMethods input)) ;;
        match movePaymentMethod with
        | None => ret NO_CHANGES
        | Some method =>
            ret {| operations :=
                     [move {| index := 0;
                              paymentMethodId := id method |}] |}
        end.

(** One invocation, on an empty console. *)
Definition run (input : InputQuery) : Console * completion FunctionResult :=
  default_export input [].

(** *** Vocabulary of the properties *)

(** The function read [configured_name] and [configured_total] from the
    configuration of [input]. *)
Definition reads (input : InputQuery)
  (configured_name configured_total : jsvalue) : Prop :=
  exists configuration,
    JSON_parse (metafield_value input) = Normal configuration
    /\ get_member configuration "paymentMethodName" = Normal configured_name
    /\ get_member configuration "cartTotal" = Normal configured_total.

(** The configuration is present: both settings are truthy. *)
Definition present (input : InputQuery)
  (configured_name configured_total : jsvalue) : Prop :=
  reads input configured_name configured_total
  /\ ToBoolean configured_name = true
  /\ ToBoolean configured_total = true.

(** The cart total of [input] as the function parses it. *)
Definition cart_total (input : InputQuery) : Number.number :=
  parseFloat (amount_text input).

(** The name of a payment method contains the configured name, or not. *)
Definition matches (configured_name : jsvalue) (method : PaymentMethod)
  : Prop :=
  String_includes (name method) configured_name = Normal true.

Definition misses (configured_name : jsvalue) (method : PaymentMethod)
  : Prop :=
  String_includes (name method) configured_name = Normal false.

(** The result with the single operation that moves [method] first. *)
Definition move_first (method : PaymentMethod) : FunctionResult :=
  {| operations := [move {| index := 0; paymentMethodId := id method |}] |}.

(** The configured total of [input], converted as the comparison with the
    cart total converts it. *)
Definition threshold (input : InputQuery) (x : Number.number) : Prop :=
  exists configured_name configured_total,
    reads input configured_name configured_total
    /\ ToNumber configured_total = Normal x.

(** A value that is neither an array nor an object. *)
Definition primitive (v : jsvalue) : bool :=
  match v with
  | Some (JArr _) | Some (JObj _) => false
  | _ => true
  end.

(** [input] with another amount in [cart.cost.totalAmount]. *)
Definition with_amount (input : InputQuery) (a : option string) : InputQuery :=
  {| paymentCustomization := paymentCustomization input;
     cart := {| cost := {| totalAmount := {| amount := a |} |} |};
     paymentMethods := paymentMethods input |}.

(** *** Example inputs *)

Definition quoted (s : string) : string :=
  String (ascii_of_N 34) (s ++ String (ascii_of_N 34) EmptyString).

(** The metafield value [{"paymentMethodName":<name>,"cartTotal":<total>}],
    with [name] quoted and [total] as it is written. *)
Definition configuration_text (configured_name total : string) : string :=
  "{" ++ quoted "paymentMethodName" ++ ":" ++ quoted configured_name ++ ","
  ++ quoted "cartTotal" ++ ":" ++ total ++ "}".

Definition checkout (metafield_text : string) (amount_text : option string)
  (methods : list PaymentMethod) : InputQuery :=
  {| paymentCustomization :=
       Some {| metafield := Some {| value := Some metafield_text |} |};
     cart := {| cost := {| totalAmount := {| amount := amount_text |} |} |};
     paymentMethods := methods |}.

Definition credit_card : PaymentMethod :=
  {| id := "gid://1"; name := "Credit Card" |}.

Definition cash_on_delivery : PaymentMethod :=
  {| id := "gid://2"; name := "Cash on Delivery (COD)" |}.

Definition cod_express : PaymentMethod :=
  {| id := "gid://3"; name := "COD express" |}.

Definition methods : list PaymentMethod :=
  [credit_card; cash_on_delivery; cod_express].

Definition hundred : Number.number := Number.of_decimal false 100 0.

Definition minus_five : Number.number := Number.of_decimal true 5 0.

End PaymentCustomization.

(** ** The admin backend: [POST /api/paymentCustomization/create] *)

(** [v.name] on a value: reading a property of [undefined] throws too. *)
Definition member (v : jsvalue) (name : string) : completion jsvalue :=
  match v with
  | None => Throw TypeError
  | Some j => get_member j name
  end.

(** The number of UTF-16 code units of a string held as UTF-8: one for
    each character, and one more for each character of four bytes. *)
Fixpoint utf16_length (s : string) : nat :=
  match s with
  | EmptyString => O
  | String c r =>
      let n := Str.code c in
      ((if ((n <? 128) || (192 <=? n))%N then 1 else 0)
       + (if (240 <=? n)%N then 1 else 0)
       + utf16_length r)%nat
  end.

(** [v.length]: the length of an array or of a string, an own property of
    any other object, [undefined] on the remaining values. *)
Definition length_of (v : jsvalue) : completion jsvalue :=
  match v with
  | None | Some JNull => Throw TypeError
  | Some (JArr items) =>
      Normal (Some (JNum (Number.of_length (List.length items))))
  | Some (JStr s) => Normal (Some (JNum (Number.of_length (utf16_length s))))
  | Some (JObj fields) => Normal (assoc_last fields "length")
  | Some _ => Normal None
  end.

(** [v.map(callback)]: [Array.prototype.map] on an array; no other JSON
    value has a callable [map]. *)
Fixpoint map_completion {A B : Type} (f : A -> completion B) (l : list A)
  : completion (list B) :=
  match l with
  | [] => Normal []
  | x :: r =>
      y <- f x ;;
      ys <- map_completion f r ;;
      Normal (y :: ys)
  end.

Definition Array_map (callback : json -> completion jsvalue) (v : jsvalue)
  : completion (list jsvalue) :=
  match v with
  | Some (JArr items) => map_completion callback items
  | _ => Throw TypeError
  end.

(** [Array.prototype.join]: [undefined] and [null] elements give the empty
    string, the others their ToString. *)
Fixpoint Array_join (separator : string) (l : list jsvalue)
  : completion string :=
  match l with
  | [] => Normal EmptyString
  | x :: r =>
      s <- match x with
           | None | Some JNull => Normal EmptyString
           | _ => ToString x
           end ;;
      match r with
      | [] => Normal s
      | _ :: _ => t <- Array_join separator r ;; Normal (s ++ separator ++ t)
      end
  end.

(** [try { body } catch (error) { handler }] *)
Definition try_catch {W A : Type} (body : eff W A)
  (handler : js_error -> eff W A) : eff W A :=
  fun w =>
    match body w with
    | (w', Throw e) => handler e w'
    | done => done
    end.

Module Backend.

(** The two mutations, with their variables.  [configurationValue] is
    [JSON.stringify] of an object made of the two values kept here. *)
Inductive GraphqlRequest : Type :=
| PaymentCustomizationCreate (functionId : jsvalue) (title : string)
    (enabled : bool)
| MetafieldsSet (customizationId : jsvalue)
    (paymentMethodName cartTotal : jsvalue).

(** What [res.send] was given: nothing, or [{ error: ... }]. *)
Inductive Body : Type :=
| NoBody
| ErrorBody (error : jsvalue).

Record HttpResponse : Type := { status : Z; body : Body }.

(** The requests sent to the Admin API, oldest first, and the response
    written on [res]. *)
Record World : Type :=
  { queries : list GraphqlRequest; response : option HttpResponse }.

Definition start : World := {| queries := []; response := None |}.

Section Handler.

(** What the Admin API answers: the value [graphqlClient.query]
    resolves to, or the error it rejects with. *)
Variable graphql : GraphqlRequest -> completion json.

Definition graphqlClient_query (request : GraphqlRequest)
  : eff World jsvalue :=
  fun w =>
    ({| queries := (queries w ++ [request])%list;
        response := response w |},
     j <- graphql request ;; Normal (Some j)).

(** [res.status(code).send(body)]; a second response is refused. *)
Definition res_status_send (code : Z) (b : Body) : eff World unit :=
  fun w =>
    match response w with
    | None =>
        ({| queries := queries w;
            response := Some {| status := code; body := b |} |},
         Normal tt)
    | Some _ => (w, Throw (Error "ERR_HTTP_HEADERS_SENT"))
    end.

Definition handleUserError (userErrors : jsvalue) : eff World bool :=
  some <~ (if ToBoolean userErrors then
             len <~ lift (length_of userErrors) ;;
             n <~ lift (ToNumber len) ;;
             ret (Number.gt n Number.zero)
           else ret false) ;;
  if some then
    messages <~
      lift (Array_map (fun error => member (Some error) "message")
              userErrors) ;;
    message <~ lift (Array_join " " messages) ;;
    res_status_send 500 (ErrorBody (Some (JStr message))) ;;;
    ret true
  else ret false.

(** The [input] variable of the first mutation. *)
Definition create_request (payload : json) : completion GraphqlRequest :=
  functionId <- get_member payload "functionId" ;;
  paymentMethod <- get_member payload "paymentMethod" ;;
  method_text <- ToString paymentMethod ;;
  cartTotal <- get_member payload "cartTotal" ;;
  total_text <- ToString cartTotal ;;
  Normal (PaymentCustomizationCreate functionId
            ("Move " ++ method_text ++ " if cart total is less than "
             ++ total_text)
            true).

(** The variables of the second mutation. *)
Definition metafield_request (payload : json) (customizationId : jsvalue)
  : completion GraphqlRequest :=
  paymentMethod <- get_member payload "paymentMethod" ;;
  cartTotal <- get_member payload "cartTotal" ;;
  Normal (MetafieldsSet customizationId paymentMethod cartTotal).

(** [response.body.data.<name>] *)
Definition mutation_result (response : jsvalue) (name : string)
  : completion jsvalue :=
  b <- member response "body" ;;
  d <- member b "data" ;;
  member d name.

(** The body of the [try] block; [true] when it ends in [return]. *)
Definition create_and_configure (payload : json) : eff World bool :=
  request <~ lift (create_request payload) ;;
  createResponse <~ graphqlClient_query request ;;
  createResult <~
    lift (mutation_result createResponse "paymentCustomizationCreate") ;;
  userErrors <~ lift (member createResult "userErrors") ;;
  handled <~ handleUserError userErrors ;;
  if handled then ret true
  else
    customization <~ lift (member createResult "paymentCustomization") ;;
    customizationId <~ lift (member customization "id") ;;
    request2 <~ lift (metafield_request payload customizationId) ;;
    metafieldResponse <~ graphqlClient_query request2 ;;
    metafieldResult <~
      lift (mutation_result metafieldResponse "metafieldsSet") ;;
    handleUserError metafieldResult.

(** The handler of [POST /api/paymentCustomization/create], on the
    request body [payload].  The client it sends the mutations with is
    built from the session that the authentication middleware leaves on
    [res.locals]. *)
Definition create (payload : json) : eff World unit :=
  returned <~
    try_catch (create_and_configure payload)
      (fun error =>
         match error with
         | GraphqlQueryError r =>
             res_status_send 500 (ErrorBody r) ;;;
             ret true
         | _ => throw error
         end) ;;
  if returned then ret tt else res_status_send 200 NoBody.

End Handler.

(** *** Example exchanges *)

Definition user_error (message : string) : json :=
  JObj [("message", JStr message)].

(** The response whose [body.data] holds the result of one mutation. *)
Definition answer (mutation : string) (result : json) : json :=
  JObj [("body", JObj [("data", JObj [(mutation, result)])])].

Definition created (customization_id : string) (errors : list string) : json :=
  answer "paymentCustomizationCreate"
    (JObj [("paymentCustomization", JObj [("id", JStr customization_id)]);
           ("userErrors", JArr (map user_error errors))]).

Definition metafields_set (errors : list string) : json :=
  answer "metafieldsSet"
    (JObj [("metafields", JArr []);
           ("userErrors", JArr (map user_error errors))]).

(** An Admin API that answers [first] to the first mutation and [second]
    to the second. *)
Definition api (first second : completion json) (request : GraphqlRequest)
  : completion json :=
  match request with
  | PaymentCustomizationCreate _ _ _ => first
  | MetafieldsSet _ _ _ => second
  end.

Definition form : json :=
  JObj [("functionId", JStr "function-1");
        ("paymentMethod", JStr "COD");
        ("cartTotal", JNum (Number.of_decimal false 100 0))].

Definition form_create : GraphqlRequest :=
  PaymentCustomizationCreate (Some (JStr "function-1"))
    "Move COD if cart total is less than 100" true.

Definition form_configure : GraphqlRequest :=
  MetafieldsSet (Some (JStr "gid://1")) (Some (JStr "COD"))
    (Some (JNum (Number.of_decimal false 100 0))).

(** *** Vocabulary of the properties *)

(** What [handleUserError] takes for no error: [null], [undefined] and the
    other falsy values, the empty array, and an object without a
    [length]. *)
Definition unseen (v : jsvalue) : Prop :=
  ToBoolean v = false
  \/ v = Some (JArr [])
  \/ exists fields, v = Some (JObj fields) /\ assoc_last fields "length" = None.

End Backend.

(** ** The admin backend: [GET /api/products/create] *)

Module Products.

(** The response: its status, and the [success] and [error] of the object
    given to [res.send]. *)
Record Answer : Type := { status : Z; success : bool; error : jsvalue }.

(** The lines written by [console.log] and the response written on
    [res]. *)
Record World : Type := { console : list string; response : option Answer }.

Definition start : World := {| console := []; response := None |}.

Section Handler.

(** What awaiting [productCreator(session)] gives: nothing, or the error it
    rejects with. *)
Variable productCreator : completion unit.

(** The [message] of an error. *)
Variable message : js_error -> string.

Definition console_log (line : string) : eff World unit :=
  fun w =>
    ({| console := (console w ++ [line])%list; response := response w |},
     Normal tt).

Definition res_status_send (code : Z) (ok : bool) (err : jsvalue)
  : eff World unit :=
  fun w =>
    match response w with
    | None =>
        ({| console := console w;
            response :=
              Some {| status := code; success := ok; error := err |} |},
         Normal tt)
    | Some _ => (w, Throw (Error "ERR_HTTP_HEADERS_SENT"))
    end.

(** The handler.  The pair is its two locals, [status] and [error], as the
    [try] statement leaves them. *)
Definition create : eff World unit :=
  locals <~
    try_catch
      (lift productCreator ;;; ret (200, Some JNull))
      (fun e =>
         console_log ("Failed to process products/create: " ++ message e) ;;;
         ret (500, Some (JStr (message e)))) ;;
  res_status_send (fst locals) (fst locals =? 200) (snd locals).

End Handler.

End Products.

(** ** More vocabulary for the payment customization function *)

(** [input] with other payment methods. *)
Definition with_methods (input : PaymentCustomization.InputQuery)
  (l : list PaymentCustomization.PaymentMethod)
  : PaymentCustomization.InputQuery :=
  {| PaymentCustomization.paymentCustomization :=
       PaymentCustomization.paymentCustomization input;
     PaymentCustomization.cart := PaymentCustomization.cart input;
     PaymentCustomization.paymentMethods := l |}.

(** The methods of a list whose names have [needle] inside them. *)
Definition matching (needle : string)
  (l : list PaymentCustomization.PaymentMethod)
  : list PaymentCustomization.PaymentMethod :=
  filter (fun method => Str.includes (PaymentCustomization.name method) needle)
    l.

(** Two payment methods with names outside ASCII: the grinning face
    U+1F600, whose code units are the surrogates D83D and DE00, before
    [ Pay]; and the first of these surrogates alone before [ Pay]. *)
Definition grinning_pay : PaymentCustomization.PaymentMethod :=
  {| PaymentCustomization.id := "gid://6";
     PaymentCustomization.name :=
       String_fromCharCode [55357; 56832; 32; 80; 97; 121]%N |}.

Definition surrogate_pay : PaymentCustomization.PaymentMethod :=
  {| PaymentCustomization.id := "gid://7";
     PaymentCustomization.name :=
       String_fromCharCode [55357; 32; 80; 97; 121]%N |}.

(** The configuration whose name is that surrogate, written as JSON
    writes it. *)
Definition surrogate_configuration : string :=
  PaymentCustomization.configuration_text "\ud83d" "100".

(** * Properties of the payment customization function *)

Import PaymentCustomization.

(** ** What [includes] decides *)

Lemma starts_with_app (t r : list N) : Str.starts_with (t ++ r) t = true.
Proof.
  induction t as [|u t IH]; simpl; [reflexivity|].
  rewrite N.eqb_refl. exact IH.
Qed.

Lemma starts_with_inv (t l : list N) :
  Str.starts_with l t = true -> exists r, l = (t ++ r)%list.
Proof.
  revert l; induction t as [|u t IH]; intros l H.
  - exists l; reflexivity.
  - destruct l as [|v l]; simpl in H; [discriminate|].
    apply andb_true_iff in H. destruct H as [E H].
    apply N.eqb_eq in E. subst v.
    destruct (IH l H) as [r ->]. exists r; reflexivity.
Qed.

Lemma occurs_cons (v : N) (l t : list N) :
  Str.occurs l t = true -> Str.occurs (v :: l) t = true.
Proof.
  intros H. change (Str.occurs (v :: l) t)
    with (Str.starts_with (v :: l) t || Str.occurs l t).
  rewrite H. apply orb_true_r.
Qed.

Lemma occurs_starts_with (l t : list N) :
  Str.starts_with l t = true -> Str.occurs l t = true.
Proof.
  intros H. destruct l; cbn [Str.occurs]; rewrite H; reflexivity.
Qed.

Lemma occurs_spec (l t : list N) :
  Str.occurs l t = true <-> exists a b, l = (a ++ t ++ b)%list.
Proof.
  split.
  - induction l as [|v l IH]; cbn [Str.occurs]; intros H.
    + rewrite orb_false_r in H. destruct (starts_with_inv _ _ H) as [r E].
      exists [], r; exact E.
    + apply orb_true_iff in H. destruct H as [H|H].
      * destruct (starts_with_inv _ _ H) as [r E]. exists [], r; exact E.
      * destruct (IH H) as (a & b & ->). exists (v :: a), b; reflexivity.
  - intros (a & b & ->). induction a as [|v a IH].
    + apply (occurs_starts_with (t ++ b) t), starts_with_app.
    + apply (occurs_cons v (a ++ t ++ b) t), IH.
Qed.

(** [includes s t] holds exactly when the code units of [t] are a run of
    those of [s]. *)
Lemma includes_spec (s t : string) :
  Str.includes s t = true
  <-> exists a b, Str.units s = (a ++ Str.units t ++ b)%list.
Proof. apply occurs_spec. Qed.

(** The code units of a string are as many as its [length]. *)
Lemma units_length (s : string) :
  List.length (Str.units s) = utf16_length s.
Proof.
  induction s as [|c s IH]; [reflexivity|].
  cbn [Str.units utf16_length].
  destruct (Str.code c <? 128)%N eqn:H1; [simpl; rewrite IH|].
  - destruct (240 <=? Str.code c)%N eqn:H4; [|reflexivity].
    apply N.ltb_lt in H1. apply N.leb_le in H4. lia.
  - destruct (Str.code c <? 192)%N eqn:H2.
    + apply N.ltb_lt in H2.
      destruct (192 <=? Str.code c)%N eqn:H2'; [apply N.leb_le in H2'; lia|].
      destruct (240 <=? Str.code c)%N eqn:H4; [apply N.leb_le in H4; lia|].
      simpl. exact IH.
    + apply N.ltb_ge in H2.
      destruct (192 <=? Str.code c)%N eqn:H2'; [|apply N.leb_gt in H2'; lia].
      destruct (Str.code c <? 224)%N eqn:H3.
      * apply N.ltb_lt in H3.
        destruct (240 <=? Str.code c)%N eqn:H4; [apply N.leb_le in H4; lia|].
        simpl. rewrite IH. reflexivity.
      * destruct (Str.code c <? 240)%N eqn:H5.
        -- apply N.ltb_lt in H5.
           destruct (240 <=? Str.code c)%N eqn:H4;
             [apply N.leb_le in H4; lia|].
           simpl. rewrite IH. reflexivity.
        -- apply N.ltb_ge in H5.
           destruct (240 <=? Str.code c)%N eqn:H4;
             [|apply N.leb_gt in H4; lia].
           simpl. rewrite IH. reflexivity.
Qed.

(** ** Strings and their code units

    Every sequence of code units is held by a string, and [units] reads
    it back. *)

Ltac order :=
  repeat match goal with
         | H : (_ <? _)%N = true |- _ => apply N.ltb_lt in H
         | H : (_ <? _)%N = false |- _ => apply N.ltb_ge in H
         | H : (_ <=? _)%N = true |- _ => apply N.leb_le in H
         | H : (_ <=? _)%N = false |- _ => apply N.leb_gt in H
         end.

Lemma code_of_byte (n : N) : (n < 256)%N -> Str.code (ascii_of_N n) = n.
Proof. apply N_ascii_embedding. Qed.

Lemma units_byte (n : N) (r : string) :
  (n < 256)%N ->
  Str.units (String (ascii_of_N n) r)
  = if (n <? 128)%N then n :: Str.units r
    else if (n <? 192)%N then Str.units r
    else if (n <? 224)%N
    then ((n - 192) * 64 + Str.continuation 0 r)%N :: Str.units r
    else if (n <? 240)%N
    then ((n - 224) * 4096 + Str.continuation 0 r * 64
          + Str.continuation 1 r)%N :: Str.units r
    else
      let point :=
        ((n - 240) * 262144 + Str.continuation 0 r * 4096
         + Str.continuation 1 r * 64 + Str.continuation 2 r - 65536)%N in
      (55296 + point / 1024)%N :: (56320 + point mod 1024)%N :: Str.units r.
Proof. intros H. cbn [Str.units]. rewrite (code_of_byte n H). reflexivity. Qed.

Lemma continuation_0 (n : N) (r : string) :
  (n < 256)%N -> Str.continuation 0 (String (ascii_of_N n) r) = (n mod 64)%N.
Proof.
  intros H. unfold Str.continuation. cbn [get].
  rewrite (code_of_byte n H). reflexivity.
Qed.

Lemma continuation_S (i : nat) (c : ascii) (r : string) :
  Str.continuation (S i) (String c r) = Str.continuation i r.
Proof. reflexivity. Qed.

Ltac divs := zify; Z.to_euclidean_division_equations; lia.

(** The digits of a number in base 64, as the bytes of UTF-8 carry them. *)
Lemma digits64 (u : N) :
  exists q1 q2 q3 d c b : N,
    (u / 64 = q1 /\ u / 4096 = q2 /\ u / 262144 = q3
     /\ u mod 64 = d /\ q1 mod 64 = c /\ q2 mod 64 = b
     /\ u = q1 * 64 + d /\ q1 = q2 * 64 + c /\ q2 = q3 * 64 + b
     /\ d < 64 /\ c < 64 /\ b < 64)%N.
Proof.
  exists (u / 64)%N, (u / 4096)%N, (u / 262144)%N,
    (u mod 64)%N, (u / 64 mod 64)%N, (u / 4096 mod 64)%N.
  assert (E1 : (u / 4096 = u / 64 / 64)%N)
    by (rewrite N.Div0.div_div; reflexivity).
  assert (E2 : (u / 262144 = u / 4096 / 64)%N)
    by (rewrite N.Div0.div_div; reflexivity).
  repeat split; try (apply N.mod_lt; discriminate).
  - rewrite N.mul_comm. apply N.div_mod. discriminate.
  - rewrite E1, N.mul_comm. apply N.div_mod. discriminate.
  - rewrite E2, N.mul_comm. apply N.div_mod. discriminate.
Qed.

Lemma low_bits (c : N) : (c < 64)%N -> ((128 + c) mod 64 = c)%N.
Proof. intros H. divs. Qed.

Ltac digits u :=
  let q1 := fresh "q" in
  let q2 := fresh "q" in
  let q3 := fresh "q" in
  let d := fresh "d" in
  let c := fresh "c" in
  let b := fresh "b" in
  let E1 := fresh "E" in
  let E2 := fresh "E" in
  let E3 := fresh "E" in
  let E4 := fresh "E" in
  let E5 := fresh "E" in
  let E6 := fresh "E" in
  destruct (digits64 u)
    as (q1 & q2 & q3 & d & c & b & E1 & E2 & E3 & E4 & E5 & E6
        & ? & ? & ? & ? & ? & ?);
  rewrite ?E1, ?E2, ?E3, ?E4, ?E5, ?E6;
  clear E1 E2 E3 E4 E5 E6.

Lemma units_utf8 (u : N) (s : string) :
  (u < 65536)%N -> Str.units (utf8 u ++ s) = u :: Str.units s.
Proof.
  intros Hu. unfold utf8, utf8_rev.
  destruct (u <? 128)%N eqn:H1; [|destruct (u <? 2048)%N eqn:H2;
    [|destruct (u <? 65536)%N eqn:H3]]; order; try lia;
    cbn [fold_left append].
  - rewrite units_byte by lia.
    destruct (u <? 128)%N eqn:E; order; [reflexivity|lia].
  - digits u.
    rewrite units_byte by lia.
    destruct (192 + q <? 128)%N eqn:E1; order; [lia|].
    destruct (192 + q <? 192)%N eqn:E2; order; [lia|].
    destruct (192 + q <? 224)%N eqn:E3; order; [|lia].
    rewrite continuation_0, low_bits by lia.
    rewrite units_byte by lia.
    destruct (128 + d <? 128)%N eqn:E4; order; [lia|].
    destruct (128 + d <? 192)%N eqn:E5; order; [|lia].
    f_equal. lia.
  - digits u.
    rewrite units_byte by lia.
    destruct (224 + q0 <? 128)%N eqn:E1; order; [lia|].
    destruct (224 + q0 <? 192)%N eqn:E2; order; [lia|].
    destruct (224 + q0 <? 224)%N eqn:E3; order; [lia|].
    destruct (224 + q0 <? 240)%N eqn:E6; order; [|lia].
    rewrite continuation_S, !continuation_0, !low_bits by lia.
    rewrite !units_byte by lia.
    destruct (128 + c <? 128)%N eqn:E4; order; [lia|].
    destruct (128 + c <? 192)%N eqn:E5; order; [|lia].
    destruct (128 + d <? 128)%N eqn:E7; order; [lia|].
    destruct (128 + d <? 192)%N eqn:E8; order; [|lia].
    f_equal. lia.
Qed.

Lemma surrogates_of_point (h t : N) :
  is_high_surrogate h = true ->
  is_low_surrogate t = true ->
  let point := ((h - 55296) * 1024 + (t - 56320))%N in
  (65536 + point < 1114112
   /\ 55296 + point / 1024 = h /\ 56320 + point mod 1024 = t)%N.
Proof.
  unfold is_high_surrogate, is_low_surrogate. intros Hh Ht.
  apply andb_true_iff in Hh, Ht. destruct Hh as [Hh1 Hh2], Ht as [Ht1 Ht2].
  order. cbv zeta.
  assert (E : ((h - 55296) * 1024 + (t - 56320)
               = 1024 * (h - 55296) + (t - 56320))%N) by lia.
  rewrite E. split; [lia|].
  rewrite <- (N.div_unique _ 1024 (h - 55296) (t - 56320)%N) by lia.
  rewrite <- (N.mod_unique _ 1024 (h - 55296) (t - 56320)%N) by lia.
  lia.
Qed.

Lemma units_utf8_pair (h t : N) (s : string) :
  is_high_surrogate h = true ->
  is_low_surrogate t = true ->
  Str.units (utf8 (65536 + (h - 55296) * 1024 + (t - 56320)) ++ s)
  = h :: t :: Str.units s.
Proof.
  intros Hh Ht.
  destruct (surrogates_of_point h t Hh Ht) as (Hu & Eh & Et).
  rewrite <- N.add_assoc.
  set (point := ((h - 55296) * 1024 + (t - 56320))%N) in *.
  clearbody point. clear Hh Ht.
  remember (65536 + point)%N as u eqn:Eu.
  unfold utf8, utf8_rev.
  destruct (u <? 128)%N eqn:H1; order; [lia|].
  destruct (u <? 2048)%N eqn:H2; order; [lia|].
  destruct (u <? 65536)%N eqn:H3; order; [lia|].
  cbn [fold_left append].
  digits u.
  rewrite units_byte by lia.
  destruct (240 + q1 <? 128)%N eqn:E1; order; [lia|].
  destruct (240 + q1 <? 192)%N eqn:E2; order; [lia|].
  destruct (240 + q1 <? 224)%N eqn:E3; order; [lia|].
  destruct (240 + q1 <? 240)%N eqn:E4; order; [lia|].
  cbv zeta.
  rewrite !continuation_S, !continuation_0, !low_bits by lia.
  rewrite !units_byte by lia.
  destruct (128 + b <? 128)%N eqn:E5; order; [lia|].
  destruct (128 + b <? 192)%N eqn:E6; order; [|lia].
  destruct (128 + c <? 128)%N eqn:E7; order; [lia|].
  destruct (128 + c <? 192)%N eqn:E8; order; [|lia].
  destruct (128 + d <? 128)%N eqn:E9; order; [lia|].
  destruct (128 + d <? 192)%N eqn:E10; order; [|lia].
  replace ((240 + q1 - 240) * 262144 + b * 4096 + c * 64 + d - 65536)%N
    with point by lia.
  rewrite Eh, Et. reflexivity.
Qed.

Lemma append_empty (s : string) : s ++ EmptyString = s.
Proof. induction s; simpl; congruence. Qed.

Lemma fromCharCode_pair (h t : N) (r : list N) :
  String_fromCharCode (h :: t :: r)
  = if is_high_surrogate h && is_low_surrogate t
    then utf8 (65536 + (h - 55296) * 1024 + (t - 56320))
         ++ String_fromCharCode r
    else utf8 h ++ String_fromCharCode (t :: r).
Proof. reflexivity. Qed.

Lemma units_fromCharCode (l : list N) :
  Forall (fun u => (u < 65536)%N) l ->
  Str.units (String_fromCharCode l) = l.
Proof.
  assert (G : forall n l, (List.length l <= n)%nat ->
                          Forall (fun u => (u < 65536)%N) l ->
                          Str.units (String_fromCharCode l) = l).
  { induction n as [|n IH]; intros [|h [|t r]] Hn Hl; simpl in Hn;
      try reflexivity; try lia.
    - cbn [String_fromCharCode]. inversion Hl; subst.
      rewrite <- (append_empty (utf8 h)). apply units_utf8. assumption.
    - inversion Hl as [|? ? Hh Hl']; subst.
      inversion Hl' as [|? ? Ht Hr]; subst.
      rewrite fromCharCode_pair.
      destruct (is_high_surrogate h && is_low_surrogate t) eqn:E.
      + apply andb_true_iff in E. destruct E as [E1 E2].
        rewrite (units_utf8_pair h t _ E1 E2).
        rewrite (IH r) by (simpl; try assumption; lia). reflexivity.
      + rewrite (units_utf8 h _ Hh).
        rewrite (IH (t :: r)) by (simpl; try assumption; lia). reflexivity. }
  apply (G (List.length l)). apply le_n.
Qed.

(** On the strings of JavaScript, [includes] is the search for a run of
    code units. *)
Lemma includes_fromCharCode (l t : list N) :
  Forall (fun u => (u < 65536)%N) l ->
  Forall (fun u => (u < 65536)%N) t ->
  Str.includes (String_fromCharCode l) (String_fromCharCode t) = true
  <-> exists a b, l = (a ++ t ++ b)%list.
Proof.
  intros Hl Ht. rewrite includes_spec.
  rewrite (units_fromCharCode l Hl), (units_fromCharCode t Ht). reflexivity.
Qed.

(** ** The search for the payment method *)

Section Search.

Variable configured_name : jsvalue.

Let predicate (method : PaymentMethod) : completion bool :=
  String_includes (name method) configured_name.

Lemma Array_find_none (l : list PaymentMethod) :
  Forall (misses configured_name) l -> Array_find predicate l = Normal None.
Proof.
  induction 1 as [|x l Hx _ IH]; simpl; [reflexivity|].
  unfold predicate at 1. rewrite Hx. simpl. exact IH.
Qed.

Lemma Array_find_first (before after : list PaymentMethod)
  (m : PaymentMethod) :
  Forall (misses configured_name) before ->
  matches configured_name m ->
  Array_find predicate (before ++ m :: after) = Normal (Some m).
Proof.
  intros Hb Hm. induction Hb as [|x l Hx _ IH]; simpl.
  - unfold predicate. rewrite Hm. reflexivity.
  - unfold predicate at 1. rewrite Hx. simpl. exact IH.
Qed.

(** Whether the conversion of the configured name throws does not depend
    on the payment method, so one match makes every method match or miss. *)
Lemma matches_or_misses (m x : PaymentMethod) :
  matches configured_name m ->
  matches configured_name x \/ misses configured_name x.
Proof.
  unfold matches, misses, String_includes.
  destruct (ToString configured_name) as [needle|e]; simpl; [|discriminate].
  intros _. destruct (Str.includes (name x) needle); auto.
Qed.

Lemma Exists_first_match (l : list PaymentMethod) :
  Exists (matches configured_name) l ->
  exists before m after,
    l = (before ++ m :: after)%list
    /\ Forall (misses configured_name) before
    /\ matches configured_name m.
Proof.
  induction 1 as [x l Hx | x l Hl IH].
  - exists [], x, l. auto.
  - destruct IH as (before & m & after & -> & Hb & Hm).
    destruct (matches_or_misses m x Hm) as [Hx|Hx].
    + exists [], x, (before ++ m :: after)%list. auto.
    + exists (x :: before), m, after. auto.
Qed.

End Search.

(** For a configured name that is a string, a payment method matches when
    its name has that string inside it, code unit for code unit. *)
Lemma matches_substring (needle : string) (method : PaymentMethod) :
  matches (Some (JStr needle)) method
  <-> exists a b,
        Str.units (name method) = (a ++ Str.units needle ++ b)%list.
Proof.
  unfold matches, String_includes. simpl. rewrite <- includes_spec.
  split; [intros H; injection H; auto | intros ->; reflexivity].
Qed.

(** ** The four outcomes *)

Ltac enter :=
  unfold run, default_export, cart_total, ebind, lift, ret, console_error in *.

(** Once the configuration is read, the function is the presence check,
    a comparison and a search. *)
Lemma run_when_read
  (input : InputQuery) (configured_name configured_total : jsvalue) :
  reads input configured_name configured_total ->
  run input =
  if ToBoolean configured_name && ToBoolean configured_total then
    match greater_than (cart_total input) configured_total with
    | Throw e => ([], Throw e)
    | Normal true => ([too_high], Normal NO_CHANGES)
    | Normal false =>
        match Array_find
                (fun method => String_includes (name method) configured_name)
                (paymentMethods input) with
        | Throw e => ([], Throw e)
        | Normal None => ([], Normal NO_CHANGES)
        | Normal (Some m) => ([], Normal (move_first m))
        end
    end
  else ([], Normal NO_CHANGES).
Proof.
  intros (configuration & Hp & Hn & Ht).
  enter. rewrite Hp, Hn.
  destruct (ToBoolean configured_name); simpl; [|reflexivity].
  rewrite Ht. destruct (ToBoolean configured_total); simpl; [|reflexivity].
  destruct (greater_than _ configured_total) as [[|]|e]; try reflexivity.
  destruct (Array_find _ _) as [[m|]|e]; reflexivity.
Qed.

Lemma run_when_present
  (input : InputQuery) (configured_name configured_total : jsvalue) :
  present input configured_name configured_total ->
  run input =
  match greater_than (cart_total input) configured_total with
  | Throw e => ([], Throw e)
  | Normal true => ([too_high], Normal NO_CHANGES)
  | Normal false =>
      match Array_find
              (fun method => String_includes (name method) configured_name)
              (paymentMethods input) with
      | Throw e => ([], Throw e)
      | Normal None => ([], Normal NO_CHANGES)
      | Normal (Some m) => ([], Normal (move_first m))
      end
  end.
Proof.
  intros [Hr [Bn Bt]]. rewrite (run_when_read _ _ _ Hr), Bn, Bt. reflexivity.
Qed.

(** The configuration cannot be read: the error is the caller's. *)
Lemma run_when_malformed (input : InputQuery) (e : js_error) :
  JSON_parse (metafield_value input) = Throw e -> run input = ([], Throw e).
Proof. intros Hp. enter. rewrite Hp. reflexivity. Qed.

(** C1.  When the configuration is present, the parsed cart total does not
    exceed the configured total, and some payment method has a name that
    contains the configured name, the function returns exactly one
    operation: the move to index 0 of the first such method in the order of
    the input, whatever follows it. *)
Theorem first_match_is_moved
  (input : InputQuery) (configured_name configured_total : jsvalue)
  (before after : list PaymentMethod) (m : PaymentMethod) :
  present input configured_name configured_total ->
  greater_than (cart_total input) configured_total = Normal false ->
  paymentMethods input = (before ++ m :: after)%list ->
  Forall (misses configured_name) before ->
  matches configured_name m ->
  run input = ([], Normal (move_first m)).
Proof.
  intros H Hgt Hl Hb Hm.
  rewrite (run_when_present _ _ _ H), Hgt, Hl,
    (Array_find_first _ _ _ _ Hb Hm).
  reflexivity.
Qed.

(** C2.  When the configuration is present and the parsed cart total is
    strictly greater than the configured total, the function returns no
    operation, whatever the payment methods are; it logs the diagnostic. *)
Theorem above_threshold_no_operations
  (input : InputQuery) (configured_name configured_total : jsvalue) :
  present input configured_name configured_total ->
  greater_than (cart_total input) configured_total = Normal true ->
  run input = ([too_high], Normal NO_CHANGES).
Proof.
  intros H Hgt. rewrite (run_when_present _ _ _ H), Hgt. reflexivity.
Qed.

(** C4.  When the name or the total read from the configuration is falsy
    (the empty string, zero, or a missing setting among others), the
    function returns no operation, whatever the cart total and the payment
    methods are. *)
Theorem absent_configuration_no_operations
  (input : InputQuery) (configured_name configured_total : jsvalue) :
  reads input configured_name configured_total ->
  ToBoolean configured_name = false \/ ToBoolean configured_total = false ->
  run input = ([], Normal NO_CHANGES).
Proof.
  intros Hr H. rewrite (run_when_read _ _ _ Hr).
  destruct H as [H|H]; rewrite H; [reflexivity|].
  rewrite andb_false_r. reflexivity.
Qed.

(** C5.  When the configuration is present, the parsed cart total does not
    exceed the configured total, and no payment method has a name that
    contains the configured name, the function returns no operation. *)
Theorem no_match_no_operations
  (input : InputQuery) (configured_name configured_total : jsvalue) :
  present input configured_name configured_total ->
  greater_than (cart_total input) configured_total = Normal false ->
  Forall (misses configured_name) (paymentMethods input) ->
  run input = ([], Normal NO_CHANGES).
Proof.
  intros H Hgt Hl.
  rewrite (run_when_present _ _ _ H), Hgt, (Array_find_none _ _ Hl).
  reflexivity.
Qed.

Lemma first_match_is_moved_witness :
  run (checkout (configuration_text "COD" "100") (Some "50.00") methods)
  = ([], Normal (move_first cash_on_delivery)).
Proof.
  apply (first_match_is_moved _ (Some (JStr "COD")) (Some (JNum hundred))
           [credit_card] [cod_express] cash_on_delivery).
  - split; [|split; reflexivity].
    eexists; repeat split; vm_compute; reflexivity.
  - vm_compute; reflexivity.
  - reflexivity.
  - repeat constructor.
  - vm_compute; reflexivity.
Defined.

Lemma above_threshold_no_operations_witness :
  run (checkout (configuration_text "COD" "100") (Some "150.00") methods)
  = ([too_high], Normal NO_CHANGES).
Proof.
  apply (above_threshold_no_operations _ (Some (JStr "COD"))
           (Some (JNum hundred))).
  - split; [|split; reflexivity].
    eexists; repeat split; vm_compute; reflexivity.
  - vm_compute; reflexivity.
Defined.

Lemma absent_configuration_no_operations_witness :
  run (checkout (configuration_text EmptyString "100") (Some "50.00") methods)
  = ([], Normal NO_CHANGES).
Proof.
  apply (absent_configuration_no_operations _ (Some (JStr EmptyString))
           (Some (JNum hundred))).
  - eexists; repeat split; vm_compute; reflexivity.
  - left; reflexivity.
Defined.

Lemma no_match_no_operations_witness :
  run (checkout (configuration_text "Gift card" "100") (Some "50.00") methods)
  = ([], Normal NO_CHANGES).
Proof.
  apply (no_match_no_operations _ (Some (JStr "Gift card"))
           (Some (JNum hundred))).
  - split; [|split; reflexivity].
    eexists; repeat split; vm_compute; reflexivity.
  - vm_compute; reflexivity.
  - repeat constructor.
Defined.

(** ** Comparisons of Numbers *)

Lemma compare_cont_Eq_inv (m1 m2 : positive) :
  Pos.compare_cont Eq m1 m2 = Eq -> m1 = m2.
Proof. exact (proj1 (Pos.compare_eq_iff m1 m2)). Qed.

(** Equal Numbers are not in strict order. *)
Lemma SFeqb_not_lt (a b : Number.number) :
  SFeqb a b = true -> SFltb b a = false.
Proof.
  unfold SFeqb, SFltb.
  destruct a as [sa|sa| |sa ma ea], b as [sb|sb| |sb mb eb]; simpl;
    try discriminate; try reflexivity;
    try (destruct sa, sb; simpl; discriminate || reflexivity).
  destruct sa, sb; try discriminate;
    destruct (ea ?= eb) eqn:E; try discriminate;
    apply Z.compare_eq in E; subst eb;
    destruct (Pos.compare_cont Eq ma mb) eqn:M; try discriminate;
    apply compare_cont_Eq_inv in M; subst mb; intros _;
    rewrite Z.compare_refl;
    change (Pos.compare_cont Eq ma ma) with (Pos.compare ma ma);
    rewrite Pos.compare_refl; reflexivity.
Qed.

Lemma not_gt_NaN (x : Number.number) : Number.gt Number.NaN x = false.
Proof. destruct x as [s|s| |s m e]; try destruct s; reflexivity. Qed.

(** A Number below zero is truthy, and every Number from zero up is above
    it. *)
Lemma negative_is_truthy (x : Number.number) :
  Number.lt x Number.zero = true -> Number.to_boolean x = true.
Proof.
  destruct x as [s|s| |s m e]; try destruct s; intros H;
    try reflexivity; discriminate H.
Qed.

Lemma above_negative (x p : Number.number) :
  Number.lt x Number.zero = true ->
  Number.le Number.zero p = true ->
  Number.gt p x = true.
Proof.
  destruct x as [sx|sx| |sx mx ex]; try destruct sx; try discriminate;
    destruct p as [sp|sp| |sp mp ep]; try destruct sp; try discriminate;
    reflexivity.
Qed.

(** C3.  When the configuration is present, the parsed cart total equals the
    configured total, and some payment method has a name that contains the
    configured name, the result is the move of such a method: equality with
    the threshold does not stop the move. *)
Theorem equal_to_threshold_moves
  (input : InputQuery) (configured_name configured_total : jsvalue)
  (limit : Number.number) :
  present input configured_name configured_total ->
  ToNumber configured_total = Normal limit ->
  SFeqb (cart_total input) limit = true ->
  Exists (matches configured_name) (paymentMethods input) ->
  exists m,
    In m (paymentMethods input)
    /\ matches configured_name m
    /\ run input = ([], Normal (move_first m)).
Proof.
  intros H Hn He Hx.
  destruct (Exists_first_match _ _ Hx) as (before & m & after & Hl & Hb & Hm).
  exists m. split; [rewrite Hl; apply in_elt|]. split; [exact Hm|].
  rewrite (run_when_present _ _ _ H), Hl, (Array_find_first _ _ _ _ Hb Hm).
  unfold greater_than. rewrite Hn. simpl.
  unfold Number.gt. rewrite (SFeqb_not_lt _ _ He). reflexivity.
Qed.

Lemma equal_to_threshold_moves_witness :
  exists m,
    In m methods
    /\ matches (Some (JStr "COD")) m
    /\ run (checkout (configuration_text "COD" "100") (Some "100.00") methods)
       = ([], Normal (move_first m)).
Proof.
  apply (equal_to_threshold_moves
           (checkout (configuration_text "COD" "100") (Some "100.00") methods)
           (Some (JStr "COD")) (Some (JNum hundred)) hundred).
  - split; [|split; reflexivity].
    eexists; repeat split; vm_compute; reflexivity.
  - reflexivity.
  - vm_compute; reflexivity.
  - apply Exists_cons_tl, Exists_cons_hd. vm_compute; reflexivity.
Defined.

(** C10.  A negative configured total is truthy, so the configuration is
    not taken as absent; the function goes on to the comparison, and every
    cart total that parses to zero or more exceeds it: no operation is
    returned, through the branch that logs the diagnostic. *)
Theorem negative_threshold_no_operations
  (input : InputQuery) (configured_name : jsvalue) (limit : Number.number) :
  reads input configured_name (Some (JNum limit)) ->
  ToBoolean configured_name = true ->
  Number.lt limit Number.zero = true ->
  Number.le Number.zero (cart_total input) = true ->
  ToBoolean (Some (JNum limit)) = true
  /\ run input = ([too_high], Normal NO_CHANGES).
Proof.
  intros Hr Bn Hneg Hpos.
  assert (Bt : ToBoolean (Some (JNum limit)) = true)
    by (apply negative_is_truthy, Hneg).
  split; [exact Bt|].
  rewrite (run_when_present input configured_name (Some (JNum limit)))
    by (repeat split; assumption).
  unfold greater_than. simpl. rewrite (above_negative _ _ Hneg Hpos).
  reflexivity.
Qed.

Lemma negative_threshold_no_operations_witness :
  ToBoolean (Some (JNum minus_five)) = true
  /\ run (checkout (configuration_text "COD" "-5") (Some "0.00") methods)
     = ([too_high], Normal NO_CHANGES).
Proof.
  apply (negative_threshold_no_operations
           (checkout (configuration_text "COD" "-5") (Some "0.00") methods)
           (Some (JStr "COD")) minus_five).
  - eexists; repeat split; vm_compute; reflexivity.
  - reflexivity.
  - vm_compute; reflexivity.
  - vm_compute; reflexivity.
Defined.

(** ** What [JSON.parse] throws *)

Lemma close_lexeme_throws (st : scan_state) (e : js_error) :
  close_lexeme st = Throw e -> e = SyntaxError.
Proof.
  destruct st; simpl; intros H; try congruence.
  - destruct (json_number _); congruence.
  - destruct (json_name _); congruence.
Qed.

Lemma text_step_throws (c : ascii) (e : js_error) :
  text_step c = Throw e -> e = SyntaxError.
Proof.
  unfold text_step.
  repeat match goal with
         | |- context [if ?b then _ else _] => destruct b
         | |- context [match ?o with Some _ => _ | None => _ end] => destruct o
         end; congruence.
Qed.

Lemma bind_throws {A B : Type} (c : completion A) (k : A -> completion B)
  (e : js_error) :
  bind c k = Throw e -> c = Throw e \/ exists a, c = Normal a /\ k a = Throw e.
Proof.
  destruct c as [a|e']; simpl; intros H;
    [right; exists a; auto | left; congruence].
Qed.

Lemma scan_throws (s : string) :
  forall st e, scan st s = Throw e -> e = SyntaxError.
Proof.
  induction s as [|c r IH]; intros st e H.
  - exact (close_lexeme_throws _ _ H).
  - assert (L : forall st',
      (done <- close_lexeme st' ;;
        next <- text_step c ;;
        ts <- scan (snd next) r ;;
        Normal (done ++ fst next ++ ts)%list) = Throw e -> e = SyntaxError).
    { intros st' HL.
      apply bind_throws in HL. destruct HL as [HL|(d & _ & HL)];
        [exact (close_lexeme_throws _ _ HL)|].
      apply bind_throws in HL. destruct HL as [HL|(n & _ & HL)];
        [exact (text_step_throws _ _ HL)|].
      apply bind_throws in HL. destruct HL as [HL|(ts & _ & HL)];
        [exact (IH _ _ HL)|discriminate]. }
    destruct st; cbn [scan] in H.
    + exact (L _ H).
    + destruct (Str.code c =? 34)%N.
      * apply bind_throws in H. destruct H as [H|(ts & _ & H)];
          [exact (IH _ _ H)|discriminate].
      * destruct (Ascii.eqb c "\"); [exact (IH _ _ H)|].
        destruct (Str.code c <? 32)%N; [congruence|exact (IH _ _ H)].
    + destruct (Ascii.eqb c "u"); [exact (IH _ _ H)|].
      destruct (simple_escape c); [exact (IH _ _ H)|congruence].
    + destruct (Str.hex_val c); [|congruence].
      destruct digits as [|? [|? [|? [|? ?]]]]; exact (IH _ _ H).
    + destruct (is_number_char c); [exact (IH _ _ H)|exact (L _ H)].
    + destruct (is_name_char c); [exact (IH _ _ H)|exact (L _ H)].
Qed.

Lemma parse_throws (n : nat) : forall ts m stack e,
  (List.length ts <= n)%nat -> parse m stack ts = Throw e -> e = SyntaxError.
Proof.
  induction n as [|n IH]; intros ts m stack e Hn H.
  - destruct ts; [|simpl in Hn; lia].
    destruct m; simpl in H; try congruence.
    destruct stack as [|[|] ?]; simpl in H; congruence.
  - assert (IH1 : forall t r m' stack', ts = t :: r ->
              parse m' stack' r = Throw e -> e = SyntaxError).
    { intros t r m' stack' -> H'.
      apply (IH r m' stack'); [simpl in Hn; lia|exact H']. }
    assert (IH2 : forall t t' r m' stack', ts = t :: t' :: r ->
              parse m' stack' r = Throw e -> e = SyntaxError).
    { intros t t' r m' stack' -> H'.
      apply (IH r m' stack'); [simpl in Hn; lia|exact H']. }
    destruct m.
    + destruct ts as [|t r]; [simpl in H; congruence|].
      destruct t; simpl in H; try congruence;
        try (eapply IH1; [reflexivity|exact H]).
      * destruct r as [|t' r']; [eapply IH1; [reflexivity|exact H]|].
        destruct t'; try (eapply IH1; [reflexivity|exact H]).
        eapply IH2; [reflexivity|exact H].
      * destruct r as [|t' r']; [eapply IH1; [reflexivity|exact H]|].
        destruct t'; try (eapply IH1; [reflexivity|exact H]).
        eapply IH2; [reflexivity|exact H].
    + destruct stack as [|[items|fields k] st]; destruct ts as [|t r];
        simpl in H; try congruence; destruct t; try congruence;
        eapply IH1; try reflexivity; exact H.
    + destruct ts as [|t r]; [simpl in H; congruence|].
      destruct t; simpl in H; try congruence;
        eapply IH1; [reflexivity|exact H].
    + destruct ts as [|t r]; [simpl in H; congruence|].
      destruct t; simpl in H; try congruence;
        eapply IH1; [reflexivity|exact H].
Qed.

(** [JSON.parse] throws nothing but a SyntaxError. *)
Lemma JSON_parse_throws (text : string) (e : js_error) :
  JSON_parse text = Throw e -> e = SyntaxError.
Proof.
  unfold JSON_parse. intros H. apply bind_throws in H.
  destruct H as [H|(ts & _ & H)]; [exact (scan_throws _ _ _ H)|].
  exact (parse_throws _ _ _ _ _ (le_n _) H).
Qed.

(** ** When the function throws, and when it cannot *)

Lemma primitive_ToString (v : jsvalue) :
  primitive v = true -> exists s, ToString v = Normal s.
Proof.
  destruct v as [[| b | x | s | items | fields]|]; simpl; intros H;
    try discriminate; eauto.
Qed.

Lemma primitive_ToNumber (v : jsvalue) :
  primitive v = true -> exists x, ToNumber v = Normal x.
Proof.
  destruct v as [[| b | x | s | items | fields]|]; simpl; intros H;
    try discriminate; eauto.
Qed.

Lemma Array_find_returns (configured_name : jsvalue) (needle : string)
  (l : list PaymentMethod) :
  ToString configured_name = Normal needle ->
  Array_find (fun method => String_includes (name method) configured_name) l
  = Normal None
  \/ exists m,
       In m l
       /\ Array_find
            (fun method => String_includes (name method) configured_name) l
          = Normal (Some m).
Proof.
  intros Hs. induction l as [|x l IH]; simpl; [left; reflexivity|].
  unfold String_includes at 1 3. rewrite Hs. simpl.
  destruct (Str.includes (name x) needle).
  - right. exists x. auto.
  - destruct IH as [IH|(m & Hin & IH)]; [left; exact IH|].
    right. exists m. auto.
Qed.

(** The configuration can be read exactly when the metafield value, or
    its default, is JSON text of a value other than [null]; on [null] the
    first property access throws. *)
Lemma reads_unless_null (input : InputQuery) :
  (exists configured_name configured_total,
      reads input configured_name configured_total)
  <-> exists configuration,
        JSON_parse (metafield_value input) = Normal configuration
        /\ configuration <> JNull.
Proof.
  split.
  - intros (n & t & cfg & Hp & Hn & _). exists cfg. split; [exact Hp|].
    intros ->. discriminate Hn.
  - intros (cfg & Hp & Hnull).
    destruct cfg as [| b | x | s | items | fields]; [now elim Hnull| | | | |];
      unfold reads; do 3 eexists; (split; [exact Hp|]); split; reflexivity.
Qed.

Lemma run_when_null (input : InputQuery) :
  JSON_parse (metafield_value input) = Normal JNull ->
  run input = ([], Throw TypeError).
Proof. intros Hp. enter. rewrite Hp. reflexivity. Qed.

(** C6, as the code has it.  The function returns a result, with no
    operation or with the move of one of the payment methods, for every
    input whose configuration can be read (the metafield value is missing
    or is JSON text, of a value other than [null]) and whose two settings
    are neither arrays nor objects.  A metafield value that is not JSON
    text makes it throw: the error of [JSON.parse] reaches the caller. *)
Theorem returns_unless_configuration_unreadable :
  (forall (input : InputQuery) (configured_name configured_total : jsvalue),
      reads input configured_name configured_total ->
      primitive configured_name = true ->
      primitive configured_total = true ->
      exists console r,
        run input = (console, Normal r)
        /\ (r = NO_CHANGES
            \/ exists m, In m (paymentMethods input) /\ r = move_first m))
  /\ (forall (input : InputQuery) (e : js_error),
         JSON_parse (metafield_value input) = Throw e ->
         run input = ([], Throw SyntaxError)).
Proof.
  split;
    [|intros input e H; rewrite (run_when_malformed _ _ H);
      rewrite (JSON_parse_throws _ _ H); reflexivity].
  intros input n t Hr Pn Pt.
  rewrite (run_when_read input n t Hr).
  destruct (ToBoolean n && ToBoolean t);
    [|exists [], NO_CHANGES; auto].
  destruct (primitive_ToNumber _ Pt) as [x Hx].
  destruct (primitive_ToString _ Pn) as [needle Hs].
  unfold greater_than. rewrite Hx. simpl.
  destruct (Number.gt (cart_total input) x).
  - exists [too_high], NO_CHANGES. auto.
  - destruct (Array_find_returns n needle (paymentMethods input) Hs)
      as [->|(m & Hin & ->)].
    + exists [], NO_CHANGES. auto.
    + exists [], (move_first m). split; [reflexivity|]. right. exists m. auto.
Qed.

Lemma returns_unless_configuration_unreadable_witness :
  (exists console r,
      run (checkout (configuration_text "COD" "100") (Some "50.00") methods)
      = (console, Normal r)
      /\ (r = NO_CHANGES \/ exists m, In m methods /\ r = move_first m))
  /\ run (checkout "not json" (Some "50.00") methods) = ([], Throw SyntaxError).
Proof.
  split.
  - apply (proj1 returns_unless_configuration_unreadable
             (checkout (configuration_text "COD" "100") (Some "50.00") methods)
             (Some (JStr "COD")) (Some (JNum hundred))).
    + eexists; repeat split; vm_compute; reflexivity.
    + reflexivity.
    + reflexivity.
  - apply (proj2 returns_unless_configuration_unreadable
             (checkout "not json" (Some "50.00") methods) SyntaxError).
    vm_compute; reflexivity.
Defined.

(** C6 as stated fails: on a metafield value that is not JSON text the
    function throws and returns nothing. *)
Lemma malformed_metafield_throws :
  run (checkout "not json" (Some "50.00") methods) = ([], Throw SyntaxError)
  /\ forall console r,
       run (checkout "not json" (Some "50.00") methods)
       <> (console, Normal r).
Proof.
  assert (H : run (checkout "not json" (Some "50.00") methods)
              = ([], Throw SyntaxError)) by (vm_compute; reflexivity).
  split; [exact H|]. intros console r. rewrite H. discriminate.
Qed.

(** ** The amount of the cart *)

Lemma parseFloat_default : parseFloat "0.0" = Number.zero.
Proof. vm_compute; reflexivity. Qed.

(** C7, as the code has it.  The text ["0.0"] stands in for a missing
    amount only: a missing amount behaves as the amount ["0.0"] for every
    configuration.  An amount that does not parse gives NaN, which exceeds
    no total; it behaves as the amount ["0.0"] for every configuration
    whose total, as a Number, is not below zero. *)
Theorem unparseable_amount_is_not_above
  (input : InputQuery) :
  (amount (totalAmount (cost (cart input))) = None ->
   run input = run (with_amount input (Some "0.0")))
  /\ (forall text : string,
         amount (totalAmount (cost (cart input))) = Some text ->
         parseFloat text = Number.NaN ->
         (forall x, threshold input x -> Number.lt x Number.zero = false) ->
         run input = run (with_amount input (Some "0.0"))).
Proof.
  split.
  - intros Ha. unfold run, default_export, amount_text. simpl. rewrite Ha.
    reflexivity.
  - intros text Ha Hnan Hpos.
    unfold run, default_export, ebind, lift.
    change (metafield_value (with_amount input (Some "0.0")))
      with (metafield_value input).
    destruct (JSON_parse (metafield_value input)) as [cfg|e] eqn:Hp;
      [|reflexivity].
    destruct (get_member cfg "paymentMethodName") as [n|e] eqn:Hn;
      [|reflexivity].
    destruct (ToBoolean n); simpl; [|reflexivity].
    destruct (get_member cfg "cartTotal") as [t|e] eqn:Ht; [|reflexivity].
    destruct (ToBoolean t); simpl; [|reflexivity].
    unfold amount_text at 1. rewrite Ha, Hnan.
    change (amount_text (with_amount input (Some "0.0"))) with "0.0".
    rewrite parseFloat_default.
    unfold greater_than.
    destruct (ToNumber t) as [x|e] eqn:Hx; [|reflexivity]. simpl.
    rewrite not_gt_NaN.
    assert (Hlt : Number.gt Number.zero x = false).
    { apply Hpos. exists n, t. split; [|exact Hx]. exists cfg. auto. }
    rewrite Hlt. reflexivity.
Qed.

Lemma unparseable_amount_is_not_above_witness :
  run (checkout (configuration_text "COD" "100") None methods)
  = run (checkout (configuration_text "COD" "100") (Some "0.0") methods)
  /\ run (checkout (configuration_text "COD" "100") (Some "abc") methods)
     = run (checkout (configuration_text "COD" "100") (Some "0.0") methods).
Proof.
  split.
  - apply (proj1 (unparseable_amount_is_not_above
                    (checkout (configuration_text "COD" "100") None methods))).
    reflexivity.
  - apply (proj2 (unparseable_amount_is_not_above
                    (checkout (configuration_text "COD" "100") (Some "abc")
                       methods)) "abc").
    + reflexivity.
    + vm_compute; reflexivity.
    + intros x (n & t & (cfg & Hp & Hn & Ht) & Hx).
      vm_compute in Hp. injection Hp as <-.
      vm_compute in Ht. injection Ht as <-.
      vm_compute in Hx. injection Hx as <-.
      reflexivity.
Defined.

(** C7 as stated fails: with a total below zero, an amount that does not
    parse lets the move through, and the amount ["0.0"] does not. *)
Lemma unparseable_amount_differs_from_zero :
  parseFloat "abc" = Number.NaN
  /\ run (checkout (configuration_text "COD" "-5") (Some "abc") methods)
     = ([], Normal (move_first cash_on_delivery))
  /\ run (checkout (configuration_text "COD" "-5") (Some "0.0") methods)
     = ([too_high], Normal NO_CHANGES)
  /\ run (checkout (configuration_text "COD" "-5") (Some "abc") methods)
     <> run (checkout (configuration_text "COD" "-5") (Some "0.0") methods).
Proof.
  assert (H1 : run (checkout (configuration_text "COD" "-5") (Some "abc")
                      methods)
               = ([], Normal (move_first cash_on_delivery)))
    by (vm_compute; reflexivity).
  assert (H2 : run (checkout (configuration_text "COD" "-5") (Some "0.0")
                      methods)
               = ([too_high], Normal NO_CHANGES))
    by (vm_compute; reflexivity).
  split; [vm_compute; reflexivity|].
  split; [exact H1|]. split; [exact H2|].
  rewrite H1, H2. discriminate.
Qed.

(** * Properties of the admin backend *)

Import Backend.

Lemma of_length_positive (n : nat) :
  Number.gt (Number.of_length (S n)) Number.zero = true.
Proof.
  unfold Number.of_length. simpl N.of_nat. cbv beta iota.
  match goal with
  | |- context [shl_align ?p ?a ?b] => destruct (shl_align p a b) as [m e]
  end.
  reflexivity.
Qed.

Ltac enter_handler :=
  unfold create, try_catch, create_and_configure, handleUserError,
    graphqlClient_query, res_status_send, ebind, lift, ret, throw, start.

(** C9.  When the first mutation answers with user errors, the handler
    sends no second request: the first one is all the Admin API receives,
    however the handling of the errors ends. *)
Theorem create_errors_stop_the_sequence
  (graphql : GraphqlRequest -> completion json) (payload : json)
  (request : GraphqlRequest) (createResponse : json) (createResult : jsvalue)
  (e : json) (items : list json) :
  create_request payload = Normal request ->
  graphql request = Normal createResponse ->
  mutation_result (Some createResponse) "paymentCustomizationCreate"
  = Normal createResult ->
  member createResult "userErrors" = Normal (Some (JArr (e :: items))) ->
  queries (fst (create graphql payload start)) = [request].
Proof.
  intros Hq Hg Hr Hu. enter_handler.
  rewrite Hq. simpl. rewrite Hg. simpl. rewrite Hr, Hu.
  cbn [ToBoolean length_of ToNumber ToNumber_json List.length].
  rewrite of_length_positive. cbv beta iota.
  destruct (Array_map _ (Some (JArr (e :: items)))) as [messages|err].
  - destruct (Array_join " " messages) as [message|err];
      [reflexivity|destruct err; reflexivity].
  - destruct err; reflexivity.
Qed.

Lemma create_errors_stop_the_sequence_witness :
  queries
    (fst (create (api (Normal (created "gid://1" ["Function not found"]))
                    (Normal (metafields_set [])))
            form start))
  = [form_create].
Proof.
  apply (create_errors_stop_the_sequence _ form form_create
           (created "gid://1" ["Function not found"])
           (Some (JObj [("paymentCustomization", JObj [("id", JStr "gid://1")]);
                        ("userErrors",
                         JArr (map user_error ["Function not found"]))]))
           (user_error "Function not found") []).
  - vm_compute; reflexivity.
  - reflexivity.
  - reflexivity.
  - reflexivity.
Defined.

(** ** The user errors of the two mutations *)

Lemma messages_of_user_errors (messages : list string) :
  Array_map (fun error => member (Some error) "message")
    (Some (JArr (map user_error messages)))
  = Normal (map (fun m => Some (JStr m)) messages).
Proof.
  simpl. induction messages as [|m l IH]; simpl; [reflexivity|].
  rewrite IH. reflexivity.
Qed.

Lemma join_of_strings (separator : string) (messages : list string) :
  Array_join separator (map (fun m => Some (JStr m)) messages)
  = Normal (String.concat separator messages).
Proof.
  induction messages as [|m l IH]; [reflexivity|].
  destruct l as [|m' l]; [reflexivity|].
  change (Array_join separator (map _ (m :: m' :: l)))
    with (t <- Array_join separator (map (fun m => Some (JStr m)) (m' :: l)) ;;
          Normal (m ++ separator ++ t)).
  rewrite IH. reflexivity.
Qed.

(** The first mutation: its user errors are answered with status 500 and
    their messages joined by single spaces, and nothing more is sent. *)
Lemma create_user_errors_answered_500
  (graphql : GraphqlRequest -> completion json) (payload : json)
  (request : GraphqlRequest) (createResponse : json) (createResult : jsvalue)
  (first : string) (others : list string) :
  create_request payload = Normal request ->
  graphql request = Normal createResponse ->
  mutation_result (Some createResponse) "paymentCustomizationCreate"
  = Normal createResult ->
  member createResult "userErrors"
  = Normal (Some (JArr (map user_error (first :: others)))) ->
  create graphql payload start
  = ({| queries := [request];
        response :=
          Some {| status := 500;
                  body :=
                    ErrorBody
                      (Some (JStr (String.concat " " (first :: others)))) |} |},
     Normal tt).
Proof.
  intros Hq Hg Hr Hu. enter_handler.
  rewrite Hq. simpl. rewrite Hg. simpl. rewrite Hr, Hu.
  change (map user_error (first :: others))
    with (user_error first :: map user_error others).
  cbn [ToBoolean length_of ToNumber ToNumber_json List.length].
  rewrite of_length_positive. cbv beta iota.
  change (user_error first :: map user_error others)
    with (map user_error (first :: others)).
  pose proof (messages_of_user_errors (first :: others)) as Hm.
  cbn [member] in Hm. rewrite Hm, join_of_strings. reflexivity.
Qed.

(** The second mutation: [handleUserError] is handed the result itself,
    which has no [length], so whatever its [userErrors] hold the handler
    answers 200. *)
Lemma metafield_user_errors_not_looked_at
  (graphql : GraphqlRequest -> completion json) (payload : json)
  (request request2 : GraphqlRequest) (createResponse metafieldResponse : json)
  (createResult customization customizationId : jsvalue)
  (fields : list (string * json)) :
  create_request payload = Normal request ->
  graphql request = Normal createResponse ->
  mutation_result (Some createResponse) "paymentCustomizationCreate"
  = Normal createResult ->
  member createResult "userErrors" = Normal (Some (JArr [])) ->
  member createResult "paymentCustomization" = Normal customization ->
  member customization "id" = Normal customizationId ->
  metafield_request payload customizationId = Normal request2 ->
  graphql request2 = Normal metafieldResponse ->
  mutation_result (Some metafieldResponse) "metafieldsSet"
  = Normal (Some (JObj fields)) ->
  assoc_last fields "length" = None ->
  create graphql payload start
  = ({| queries := [request; request2];
        response := Some {| status := 200; body := NoBody |} |},
     Normal tt).
Proof.
  intros Hq Hg Hr Hu Hc Hi Hq2 Hg2 Hr2 Hlen. enter_handler.
  rewrite Hq. simpl. rewrite Hg. simpl. rewrite Hr, Hu. simpl.
  rewrite Hc, Hi, Hq2. simpl. rewrite Hg2. simpl. rewrite Hr2. simpl.
  rewrite Hlen. reflexivity.
Qed.

(** C8, where the code departs from it.  The first mutation succeeds and
    the second one answers with user errors: the handler does not see
    them, and responds 200 with no body. *)
Theorem metafield_user_errors_answered_200
  (graphql : GraphqlRequest -> completion json) (payload : json)
  (request request2 : GraphqlRequest) (createResponse metafieldResponse : json)
  (createResult customization customizationId : jsvalue)
  (fields : list (string * json)) (e : json) (items : list json) :
  create_request payload = Normal request ->
  graphql request = Normal createResponse ->
  mutation_result (Some createResponse) "paymentCustomizationCreate"
  = Normal createResult ->
  member createResult "userErrors" = Normal (Some (JArr [])) ->
  member createResult "paymentCustomization" = Normal customization ->
  member customization "id" = Normal customizationId ->
  metafield_request payload customizationId = Normal request2 ->
  graphql request2 = Normal metafieldResponse ->
  mutation_result (Some metafieldResponse) "metafieldsSet"
  = Normal (Some (JObj fields)) ->
  assoc_last fields "userErrors" = Some (JArr (e :: items)) ->
  assoc_last fields "length" = None ->
  response (fst (create graphql payload start))
  = Some {| status := 200; body := NoBody |}.
Proof.
  intros Hq Hg Hr Hu Hc Hi Hq2 Hg2 Hr2 _ Hlen.
  rewrite (metafield_user_errors_not_looked_at graphql payload request
             request2 createResponse metafieldResponse createResult
             customization customizationId fields); auto.
Qed.

Lemma metafield_user_errors_answered_200_witness :
  response
    (fst (create (api (Normal (created "gid://1" []))
                    (Normal (metafields_set ["Invalid value"])))
            form start))
  = Some {| status := 200; body := NoBody |}.
Proof.
  apply (metafield_user_errors_answered_200 _ form form_create form_configure
           (created "gid://1" []) (metafields_set ["Invalid value"])
           (Some (JObj [("paymentCustomization", JObj [("id", JStr "gid://1")]);
                        ("userErrors", JArr [])]))
           (Some (JObj [("id", JStr "gid://1")])) (Some (JStr "gid://1"))
           [("metafields", JArr []);
            ("userErrors", JArr [user_error "Invalid value"])]
           (user_error "Invalid value") []);
    vm_compute; reflexivity.
Defined.

(** * The scenarios of the specification, and some texts *)

Example scenario_A :
  run (checkout (configuration_text "COD" "100") (Some "50.00")
         [credit_card; cash_on_delivery])
  = ([], Normal (move_first cash_on_delivery)).
Proof. vm_compute; reflexivity. Qed.

Example scenario_B :
  run (checkout (configuration_text "COD" "100") (Some "150.00")
         [credit_card; cash_on_delivery])
  = ([too_high], Normal NO_CHANGES).
Proof. vm_compute; reflexivity. Qed.

Example scenario_C :
  run (checkout "{}" (Some "50.00") [credit_card; cash_on_delivery])
  = ([], Normal NO_CHANGES).
Proof. vm_compute; reflexivity. Qed.

Example scenario_D :
  run (checkout (configuration_text "COD" "100") (Some "100.00")
         [credit_card; cash_on_delivery])
  = ([], Normal (move_first cash_on_delivery)).
Proof. vm_compute; reflexivity. Qed.

Example no_metafield :
  run {| paymentCustomization := Some {| metafield := None |};
         cart :=
           {| cost := {| totalAmount := {| amount := Some "50.00" |} |} |};
         paymentMethods := methods |}
  = ([], Normal NO_CHANGES).
Proof. vm_compute; reflexivity. Qed.

(** The match is case-sensitive. *)
Example lower_case_name_misses :
  run (checkout (configuration_text "cod" "100") (Some "50.00") methods)
  = ([], Normal NO_CHANGES).
Proof. vm_compute; reflexivity. Qed.

(** The JSON text [null] is a configuration whose settings cannot be read. *)
Example null_configuration_throws :
  run (checkout "null" (Some "50.00") methods) = ([], Throw TypeError).
Proof. vm_compute; reflexivity. Qed.

Example parse_configuration :
  JSON_parse (configuration_text "COD" "100")
  = Normal (JObj [("paymentMethodName", JStr "COD");
                  ("cartTotal", JNum hundred)]).
Proof. vm_compute; reflexivity. Qed.

Example parse_escapes :
  JSON_parse (quoted "\u0041\u00e9\u20AC\ud83d\ude00\n")
  = Normal (JStr ("Aé€😀" ++ String (ascii_of_N 10) EmptyString))
  /\ JSON_parse (quoted "Aé€😀") = Normal (JStr "Aé€😀").
Proof. split; vm_compute; reflexivity. Qed.

Example parse_rejects :
  map JSON_parse [EmptyString; "[1,]"; "01"; "1."; "{a:1}"; "nul"; "[1 2]"]
  = map (fun _ => Throw SyntaxError) [1; 2; 3; 4; 5; 6; 7].
Proof. vm_compute; reflexivity. Qed.

Example parseFloat_texts :
  map parseFloat ["50.00"; "  1e2kg"; "abc"; EmptyString; "-0"; ".5"]
  = [Number.of_decimal false 50 0; hundred; Number.NaN; Number.NaN;
     S754_zero true; Number.of_decimal false 5 (-1)].
Proof. vm_compute; reflexivity. Qed.

Example lengths_are_exact :
  map Number.of_length [0; 1; 3; 1000]%nat
  = map (fun n => Number.of_binary false n 0) [0; 1; 3; 1000]%N.
Proof. vm_compute; reflexivity. Qed.

Example toString_numbers :
  map Number_toString
    [hundred; Number.of_decimal false 1 (-1); Number.of_decimal false 1 21;
     Number.of_decimal true 15 (-1); Number.of_decimal false 1 (-7);
     Number.of_decimal false 72057594037927945 0]
  = ["100"; "0.1"; "1e+21"; "-1.5"; "1e-7"; "72057594037927950"].
Proof. vm_compute; reflexivity. Qed.

(** A total written as a string, or as an array of one number, is compared
    as the number it converts to. *)
Example loosely_typed_total :
  run (checkout (configuration_text "COD" (quoted "100")) (Some "150.00")
         methods)
  = ([too_high], Normal NO_CHANGES)
  /\ run (checkout (configuration_text "COD" "[100]") (Some "50.00") methods)
     = ([], Normal (move_first cash_on_delivery)).
Proof. split; vm_compute; reflexivity. Qed.

Example metafield_errors_pass :
  create (api (Normal (created "gid://1" []))
            (Normal (metafields_set ["Invalid value"])))
    form start
  = ({| queries := [form_create; form_configure];
        response := Some {| status := 200; body := NoBody |} |},
     Normal tt).
Proof. vm_compute; reflexivity. Qed.

Example create_succeeds :
  create (api (Normal (created "gid://1" [])) (Normal (metafields_set [])))
    form start
  = ({| queries := [form_create; form_configure];
        response := Some {| status := 200; body := NoBody |} |},
     Normal tt).
Proof. vm_compute; reflexivity. Qed.

Example create_is_refused :
  create (api (Normal (created "gid://1" ["Function not found"; "Try again"]))
            (Normal (metafields_set [])))
    form start
  = ({| queries := [form_create];
        response :=
          Some {| status := 500;
                  body :=
                    ErrorBody (Some (JStr "Function not found Try again")) |} |},
     Normal tt).
Proof. vm_compute; reflexivity. Qed.

Example client_error_is_answered :
  create (api (Normal (created "gid://1" []))
            (Throw (GraphqlQueryError (Some (JStr "Bad Gateway")))))
    form start
  = ({| queries := [form_create; form_configure];
        response :=
          Some {| status := 500;
                  body := ErrorBody (Some (JStr "Bad Gateway")) |} |},
     Normal tt).
Proof. vm_compute; reflexivity. Qed.

Example other_error_is_thrown :
  create (api (Throw (Error "socket hang up")) (Normal (metafields_set [])))
    form start
  = ({| queries := [form_create]; response := None |},
     Throw (Error "socket hang up")).
Proof. vm_compute; reflexivity. Qed.

(** * Further properties of the payment customization function *)

(** ** What the conversions throw *)

(** Induction on a JSON value, with the property at hand for the items of
    an array. *)
Lemma json_items_ind (P : json -> Prop) :
  P JNull ->
  (forall b, P (JBool b)) ->
  (forall x, P (JNum x)) ->
  (forall s, P (JStr s)) ->
  (forall items, Forall P items -> P (JArr items)) ->
  (forall fields, P (JObj fields)) ->
  forall v, P v.
Proof.
  intros Hnull Hbool Hnum Hstr Harr Hobj.
  exact (fix F (v : json) : P v :=
           match v with
           | JNull => Hnull
           | JBool b => Hbool b
           | JNum x => Hnum x
           | JStr s => Hstr s
           | JArr items =>
               Harr items
                 ((fix G (l : list json) : Forall P l :=
                     match l with
                     | [] => Forall_nil P
                     | x :: r => Forall_cons x (F x) (G r)
                     end) items)
           | JObj fields => Hobj fields
           end).
Qed.

Lemma ToString_json_throws (v : json) :
  forall e : js_error, ToString_json v = Throw e -> e = TypeError.
Proof.
  induction v as [| b | x | s | items IH | fields] using json_items_ind;
    intros e; simpl; try discriminate.
  - induction IH as [|x r Hx _ IHr]; [discriminate|].
    intros H. apply bind_throws in H. destruct H as [H|(s & _ & H)].
    + destruct x; try discriminate; exact (Hx _ H).
    + destruct r as [|y r']; [discriminate|].
      apply bind_throws in H. destruct H as [H|(t & _ & H)];
        [exact (IHr H)|discriminate].
  - destruct (has_own fields "toString"); congruence.
Qed.

Lemma ToString_throws (v : jsvalue) (e : js_error) :
  ToString v = Throw e -> e = TypeError.
Proof. destruct v as [j|]; [apply ToString_json_throws|discriminate]. Qed.

Lemma ToNumber_throws (v : jsvalue) (e : js_error) :
  ToNumber v = Throw e -> e = TypeError.
Proof.
  destruct v as [j|]; [|discriminate].
  assert (L : forall j',
             (s <- ToString_json j' ;; Normal (StringToNumber s)) = Throw e ->
             e = TypeError).
  { intros j' H. apply bind_throws in H.
    destruct H as [H|(s & _ & H)]; [|discriminate].
    exact (ToString_json_throws _ _ H). }
  destruct j as [| b | x | s | items | fields]; try discriminate;
    intros H; exact (L _ H).
Qed.

Lemma get_member_throws (v : json) (key : string) (e : js_error) :
  get_member v key = Throw e -> v = JNull /\ e = TypeError.
Proof. destruct v; simpl; intros H; try discriminate. split; congruence. Qed.

(** An array or an object is what makes a conversion throw. *)
Lemma ToString_throws_not_primitive (v : jsvalue) (e : js_error) :
  ToString v = Throw e -> primitive v = false.
Proof.
  destruct v as [[| b | x | s | items | fields]|]; simpl; congruence.
Qed.

Lemma ToNumber_throws_not_primitive (v : jsvalue) (e : js_error) :
  ToNumber v = Throw e -> primitive v = false.
Proof.
  destruct v as [[| b | x | s | items | fields]|]; simpl; congruence.
Qed.

(** ** What [find] returns *)

Lemma Array_find_some (configured_name : jsvalue) (l : list PaymentMethod)
  (m : PaymentMethod) :
  Array_find (fun method => String_includes (name method) configured_name) l
  = Normal (Some m) ->
  exists before after,
    l = (before ++ m :: after)%list
    /\ Forall (misses configured_name) before
    /\ matches configured_name m.
Proof.
  induction l as [|x l IH]; simpl; [discriminate|].
  destruct (String_includes (name x) configured_name) as [[|]|e] eqn:Hx;
    simpl; try discriminate.
  - intros H. injection H as <-. exists [], l. auto.
  - intros H. destruct (IH H) as (before & after & -> & Hb & Hm).
    exists (x :: before), after. auto.
Qed.

Lemma Array_find_throws (configured_name : jsvalue) (l : list PaymentMethod)
  (e : js_error) :
  Array_find (fun method => String_includes (name method) configured_name) l
  = Throw e ->
  ToString configured_name = Throw e.
Proof.
  induction l as [|x l IH]; simpl; [discriminate|].
  unfold String_includes at 1.
  destruct (ToString configured_name) as [needle|e'] eqn:Hs; simpl.
  - destruct (Str.includes (name x) needle); [discriminate|].
    intros H. specialize (IH H). congruence.
  - congruence.
Qed.

(** The three ways in which the function ends. *)
Lemma run_anatomy (input : InputQuery) :
  (exists e, JSON_parse (metafield_value input) = Throw e
             /\ run input = ([], Throw e))
  \/ (JSON_parse (metafield_value input) = Normal JNull
      /\ run input = ([], Throw TypeError))
  \/ exists configured_name configured_total,
       reads input configured_name configured_total.
Proof.
  destruct (JSON_parse (metafield_value input)) as [cfg|e] eqn:Hp.
  - destruct cfg as [| b | x | s | items | fields];
      [right; left; split; [reflexivity|apply run_when_null; exact Hp]
      | | | | |];
      right; right; apply reads_unless_null; eexists; split;
      try exact Hp; discriminate.
  - left. exists e. split; [reflexivity|apply run_when_malformed; exact Hp].
Qed.

(** ** Converses: what an outcome tells about the input *)

(** X1.  Whatever the function returns is either no operation or one move
    to index 0; and a move is returned only when the configuration is
    present, the cart total does not exceed the configured total, and the
    method moved is the first of the input whose name contains the
    configured name.  Nothing is logged then. *)
Theorem a_move_is_the_first_match
  (input : InputQuery) (console : Console) (r : FunctionResult) :
  run input = (console, Normal r) ->
  r = NO_CHANGES
  \/ exists configured_name configured_total before m after,
       present input configured_name configured_total
       /\ greater_than (cart_total input) configured_total = Normal false
       /\ paymentMethods input = (before ++ m :: after)%list
       /\ Forall (misses configured_name) before
       /\ matches configured_name m
       /\ r = move_first m
       /\ console = [].
Proof.
  intros H.
  destruct (run_anatomy input) as [(e & _ & He)|[(_ & He)|(n & t & Hr)]];
    try (rewrite He in H; discriminate).
  rewrite (run_when_read _ _ _ Hr) in H.
  destruct (ToBoolean n) eqn:Bn; [|injection H as _ <-; auto].
  destruct (ToBoolean t) eqn:Bt; [|injection H as _ <-; auto].
  simpl in H.
  destruct (greater_than (cart_total input) t) as [[|]|e] eqn:Hgt;
    [injection H as _ <-; auto| |discriminate].
  destruct (Array_find _ (paymentMethods input)) as [[m|]|e] eqn:Hf;
    [|injection H as _ <-; auto|discriminate].
  injection H as <- <-. right.
  destruct (Array_find_some _ _ _ Hf) as (before & after & Hl & Hb & Hm).
  exists n, t, before, m, after. repeat split; auto.
Qed.

Lemma a_move_is_the_first_match_witness :
  move_first cash_on_delivery = NO_CHANGES
  \/ exists configured_name configured_total before m after,
       present (checkout (configuration_text "COD" "100") (Some "50.00")
                  methods)
         configured_name configured_total
       /\ greater_than
            (cart_total (checkout (configuration_text "COD" "100")
                           (Some "50.00") methods))
            configured_total = Normal false
       /\ methods = (before ++ m :: after)%list
       /\ Forall (misses configured_name) before
       /\ matches configured_name m
       /\ move_first cash_on_delivery = move_first m
       /\ @nil string = [].
Proof.
  apply (a_move_is_the_first_match
           (checkout (configuration_text "COD" "100") (Some "50.00") methods)
           [] (move_first cash_on_delivery)).
  vm_compute; reflexivity.
Defined.

(** X2.  The diagnostic is the only line the function ever writes, and it
    writes it only when the configuration is present and the cart total
    exceeds the configured total; it then returns no operation. *)
Theorem diagnostic_only_above_threshold (input : InputQuery) :
  fst (run input) = []
  \/ (run input = ([too_high], Normal NO_CHANGES)
      /\ exists configured_name configured_total,
           present input configured_name configured_total
           /\ greater_than (cart_total input) configured_total = Normal true).
Proof.
  destruct (run_anatomy input) as [(e & _ & He)|[(_ & He)|(n & t & Hr)]];
    try (rewrite He; left; reflexivity).
  rewrite (run_when_read _ _ _ Hr).
  destruct (ToBoolean n) eqn:Bn; [|left; reflexivity].
  destruct (ToBoolean t) eqn:Bt; [|left; reflexivity].
  simpl.
  destruct (greater_than (cart_total input) t) as [[|]|e] eqn:Hgt;
    [|destruct (Array_find _ _) as [[m|]|e]; left; reflexivity
     |left; reflexivity].
  right. split; [reflexivity|]. exists n, t. repeat split; assumption.
Qed.

Lemma Array_find_rethrows (configured_name : jsvalue)
  (l : list PaymentMethod) (e : js_error) :
  ToString configured_name = Throw e ->
  l <> [] ->
  Array_find (fun method => String_includes (name method) configured_name) l
  = Throw e.
Proof.
  intros Hs Hl. destruct l as [|x l]; [now elim Hl|].
  simpl. unfold String_includes. rewrite Hs. reflexivity.
Qed.

(** X3.  The function throws in exactly these cases.  It throws the
    SyntaxError of [JSON.parse] when the metafield value is not JSON text.
    It throws a TypeError when the configuration is [null]; when the
    configuration is present and its total, an array or an object, does
    not convert to a number; and when the configuration is present, the
    cart total is not greater than the configured total, there is a
    payment method to look at, and the configured name, an array or an
    object, does not convert to a string.  It throws nothing else, and in
    no other case. *)
Theorem throws_only_on_unusable_configuration
  (input : InputQuery) (e : js_error) :
  snd (run input) = Throw e
  <-> (e = SyntaxError
       /\ JSON_parse (metafield_value input) = Throw SyntaxError)
      \/ (e = TypeError
          /\ (JSON_parse (metafield_value input) = Normal JNull
              \/ exists configured_name configured_total,
                   present input configured_name configured_total
                   /\ ((primitive configured_total = false
                        /\ ToNumber configured_total = Throw TypeError)
                       \/ (primitive configured_name = false
                           /\ greater_than (cart_total input)
                                configured_total = Normal false
                           /\ paymentMethods input <> []
                           /\ ToString configured_name
                              = Throw TypeError)))).
Proof.
  split.
  - intros H.
    destruct (run_anatomy input)
      as [(e' & Hp & He)|[(Hp & He)|(n & t & Hr)]].
    + rewrite He in H. injection H as <-.
      pose proof (JSON_parse_throws _ _ Hp) as E. subst e'. auto.
    + rewrite He in H. injection H as <-. auto.
    + rewrite (run_when_read _ _ _ Hr) in H.
      destruct (ToBoolean n) eqn:Bn; [|discriminate].
      destruct (ToBoolean t) eqn:Bt; [|discriminate].
      simpl in H.
      assert (Hpres : present input n t) by (repeat split; assumption).
      destruct (greater_than (cart_total input) t) as [[|]|e'] eqn:Hgt;
        [discriminate| |].
      * destruct (Array_find _ (paymentMethods input)) as [[m|]|e'] eqn:Hf;
          try discriminate.
        injection H as <-.
        pose proof (Array_find_throws _ _ _ Hf) as Hs.
        pose proof (ToString_throws _ _ Hs) as E. subst e'.
        right. split; [reflexivity|].
        right. exists n, t. split; [exact Hpres|].
        right. split; [exact (ToString_throws_not_primitive _ _ Hs)|].
        split; [exact Hgt|]. split; [|exact Hs].
        intros El. rewrite El in Hf. discriminate.
      * injection H as <-.
        unfold greater_than in Hgt. apply bind_throws in Hgt.
        destruct Hgt as [Hn|(y & _ & Hn)]; [|discriminate].
        pose proof (ToNumber_throws _ _ Hn) as E. subst e'.
        right. split; [reflexivity|].
        right. exists n, t. split; [exact Hpres|].
        left. split; [exact (ToNumber_throws_not_primitive _ _ Hn)|exact Hn].
  - intros [[-> Hp]|[-> [Hp|(n & t & Hpres & H)]]].
    + rewrite (run_when_malformed _ _ Hp). reflexivity.
    + rewrite (run_when_null _ Hp). reflexivity.
    + rewrite (run_when_present _ _ _ Hpres).
      destruct H as [[_ Hn]|(_ & Hgt & Hl & Hs)].
      * unfold greater_than. rewrite Hn. reflexivity.
      * rewrite Hgt, (Array_find_rethrows _ _ _ Hs Hl). reflexivity.
Qed.

(** X4.  Without a configuration metafield (no payment customization, no
    metafield on it, or no value in it) the function returns no operation,
    whatever the cart and the payment methods are. *)
Theorem missing_metafield_no_operations (input : InputQuery) :
  paymentCustomization input = None
  \/ (exists pc,
         paymentCustomization input = Some pc
         /\ (metafield pc = None
             \/ exists mf, metafield pc = Some mf /\ value mf = None)) ->
  run input = ([], Normal NO_CHANGES).
Proof.
  intros H.
  assert (Hv : metafield_value input = "{}").
  { unfold metafield_value.
    destruct H as [->|(pc & -> & [->|(mf & -> & ->)])]; reflexivity. }
  assert (Hr : reads input None None).
  { exists (JObj []). rewrite Hv. repeat split; vm_compute; reflexivity. }
  rewrite (run_when_read _ _ _ Hr). reflexivity.
Qed.

Lemma missing_metafield_no_operations_witness :
  run {| paymentCustomization := Some {| metafield := None |};
         cart :=
           {| cost := {| totalAmount := {| amount := Some "50.00" |} |} |};
         paymentMethods := methods |}
  = ([], Normal NO_CHANGES).
Proof.
  apply missing_metafield_no_operations.
  right. exists {| metafield := None |}. split; [reflexivity|].
  left; reflexivity.
Defined.

(** ** The configuration as its type declares it *)

Lemma Array_find_is_find (needle : string) (l : list PaymentMethod) :
  Array_find (fun method => String_includes (name method) (Some (JStr needle)))
    l
  = Normal (List.find (fun method => Str.includes (name method) needle) l).
Proof.
  induction l as [|x l IH]; simpl; [reflexivity|].
  destruct (Str.includes (name x) needle); [reflexivity|exact IH].
Qed.

(** X5.  With a configuration of the declared type, a string for the name
    and a number for the total, the function never throws and is this
    decision: no operation when the name is empty or the total is zero or
    NaN; the diagnostic and no operation when the cart total is greater
    than the total; otherwise the move of the first method whose name has
    the configured name inside it, or no operation when there is none. *)
Theorem declared_configuration_decides
  (input : InputQuery) (configuration : json) (configured_name : string)
  (configured_total : Number.number) :
  JSON_parse (metafield_value input) = Normal configuration ->
  get_member configuration "paymentMethodName"
  = Normal (Some (JStr configured_name)) ->
  get_member configuration "cartTotal"
  = Normal (Some (JNum configured_total)) ->
  run input =
  if String.eqb configured_name EmptyString
     || negb (Number.to_boolean configured_total)
  then ([], Normal NO_CHANGES)
  else if Number.gt (cart_total input) configured_total
  then ([too_high], Normal NO_CHANGES)
  else
    match List.find
            (fun method => Str.includes (name method) configured_name)
            (paymentMethods input) with
    | Some m => ([], Normal (move_first m))
    | None => ([], Normal NO_CHANGES)
    end.
Proof.
  intros Hp Hn Ht.
  rewrite (run_when_read input (Some (JStr configured_name))
             (Some (JNum configured_total)))
    by (exists configuration; auto).
  simpl ToBoolean.
  destruct (String.eqb configured_name EmptyString); simpl; [reflexivity|].
  destruct (Number.to_boolean configured_total); simpl; [|reflexivity].
  destruct (Number.gt (cart_total input) configured_total); [reflexivity|].
  rewrite Array_find_is_find.
  destruct (List.find _ _); reflexivity.
Qed.

Lemma declared_configuration_decides_witness :
  run (checkout (configuration_text "COD" "100") (Some "50.00") methods)
  = ([], Normal (move_first cash_on_delivery)).
Proof.
  apply (declared_configuration_decides
           (checkout (configuration_text "COD" "100") (Some "50.00") methods)
           (JObj [("paymentMethodName", JStr "COD");
                  ("cartTotal", JNum hundred)])
           "COD" hundred);
    vm_compute; reflexivity.
Defined.

(** ** The cart total against the threshold *)

Ltac order_cases :=
  repeat match goal with
         | |- context [Z.compare ?a ?b] =>
             destruct (Z.compare_spec a b)
         | |- context [Pos.compare_cont Eq ?a ?b] =>
             change (Pos.compare_cont Eq a b) with (Pos.compare a b);
             destruct (Pos.compare_spec a b)
         end.

(** Below and at-most compose, on every pair of Numbers that compare. *)
Lemma SFlt_le_trans (a b c : Number.number) :
  SFltb a b = true -> SFleb b c = true -> SFltb a c = true.
Proof.
  unfold SFltb, SFleb.
  destruct a as [sa|sa| |sa ma ea], b as [sb|sb| |sb mb eb],
    c as [sc|sc| |sc mc ec]; simpl;
    try discriminate; try reflexivity;
    try (destruct sa; discriminate || reflexivity);
    try (destruct sb; discriminate || reflexivity);
    try (destruct sc; discriminate || reflexivity);
    try (destruct sa, sb; discriminate || reflexivity);
    try (destruct sa, sc; discriminate || reflexivity);
    try (destruct sb, sc; discriminate || reflexivity);
    try (destruct sa, sb, sc; discriminate || reflexivity).
  all: destruct sa, sb, sc; simpl; try discriminate; try reflexivity.
  all: order_cases; simpl; try discriminate; try reflexivity; try lia.
Qed.

Lemma run_with_amount_read
  (input : InputQuery) (a : option string)
  (configured_name configured_total : jsvalue) :
  reads input configured_name configured_total ->
  reads (with_amount input a) configured_name configured_total.
Proof. intros H. exact H. Qed.

(** X6.  An outcome reached without the diagnostic is kept when the cart
    gets cheaper: for every amount that parses to a total lower than or
    equal to the current one, the function returns (or throws) the same. *)
Theorem cheaper_cart_keeps_the_outcome (input : InputQuery) (cheaper : string) :
  Number.le (parseFloat cheaper) (cart_total input) = true ->
  fst (run input) = [] ->
  run (with_amount input (Some cheaper)) = run input.
Proof.
  intros Hle Hquiet.
  destruct (run_anatomy input) as [(e & Hp & He)|[(Hp & He)|(n & t & Hr)]].
  - rewrite He. apply run_when_malformed. exact Hp.
  - rewrite He. apply run_when_null. exact Hp.
  - rewrite (run_when_read _ _ _ Hr) in *.
    rewrite (run_when_read _ _ _
               (run_with_amount_read _ (Some cheaper) _ _ Hr)).
    destruct (ToBoolean n && ToBoolean t); [|reflexivity].
    change (cart_total (with_amount input (Some cheaper)))
      with (parseFloat cheaper).
    change (paymentMethods (with_amount input (Some cheaper)))
      with (paymentMethods input).
    unfold greater_than in *.
    destruct (ToNumber t) as [y|e]; [|reflexivity]. simpl in *.
    destruct (Number.gt (cart_total input) y) eqn:Hgt; [discriminate|].
    destruct (Number.gt (parseFloat cheaper) y) eqn:Hgt'; [|reflexivity].
    unfold Number.gt, Number.le in *.
    rewrite (SFlt_le_trans _ _ _ Hgt' Hle) in Hgt. discriminate.
Qed.

Lemma cheaper_cart_keeps_the_outcome_witness :
  run (with_amount
         (checkout (configuration_text "COD" "100") (Some "100.00") methods)
         (Some "12.5"))
  = run (checkout (configuration_text "COD" "100") (Some "100.00") methods).
Proof.
  apply (cheaper_cart_keeps_the_outcome
           (checkout (configuration_text "COD" "100") (Some "100.00") methods)
           "12.5");
    vm_compute; reflexivity.
Defined.

(** X7.  A cart that is too high stays too high when it gets dearer: for
    every amount that parses to a total greater than or equal to the
    current one, the function again logs the diagnostic and returns no
    operation. *)
Theorem dearer_cart_stays_too_high (input : InputQuery) (dearer : string) :
  Number.le (cart_total input) (parseFloat dearer) = true ->
  run input = ([too_high], Normal NO_CHANGES) ->
  run (with_amount input (Some dearer)) = ([too_high], Normal NO_CHANGES).
Proof.
  intros Hle H.
  destruct (run_anatomy input) as [(e & Hp & He)|[(Hp & He)|(n & t & Hr)]];
    try (rewrite He in H; discriminate).
  rewrite (run_when_read _ _ _ Hr) in H.
  rewrite (run_when_read _ _ _ (run_with_amount_read _ (Some dearer) _ _ Hr)).
  destruct (ToBoolean n && ToBoolean t); [|discriminate].
  change (cart_total (with_amount input (Some dearer)))
    with (parseFloat dearer).
  unfold greater_than in *.
  destruct (ToNumber t) as [y|e]; [|discriminate]. simpl in *.
  destruct (Number.gt (cart_total input) y) eqn:Hgt;
    [|destruct (Array_find _ _) as [[m|]|e]; discriminate].
  unfold Number.gt, Number.le in *.
  rewrite (SFlt_le_trans _ _ _ Hgt Hle). reflexivity.
Qed.

Lemma dearer_cart_stays_too_high_witness :
  run (with_amount
         (checkout (configuration_text "COD" "100") (Some "100.01") methods)
         (Some "2500"))
  = ([too_high], Normal NO_CHANGES).
Proof.
  apply (dearer_cart_stays_too_high
           (checkout (configuration_text "COD" "100") (Some "100.01") methods)
           "2500");
    vm_compute; reflexivity.
Defined.

(** * Further properties of the admin backend *)

(** ** What the steps of the handler throw *)

Lemma member_throws (v : jsvalue) (key : string) (e : js_error) :
  member v key = Throw e -> e = TypeError.
Proof.
  destruct v as [j|]; simpl; [|congruence].
  intros H. exact (proj2 (get_member_throws _ _ _ H)).
Qed.

Lemma length_of_throws (v : jsvalue) (e : js_error) :
  length_of v = Throw e -> e = TypeError.
Proof.
  destruct v as [[| b | x | s | items | fields]|]; simpl; congruence.
Qed.

Lemma messages_throw (items : list json) (e : js_error) :
  map_completion (fun error => member (Some error) "message") items = Throw e ->
  e = TypeError.
Proof.
  induction items as [|x r IH]; simpl; [discriminate|].
  intros H. apply bind_throws in H. destruct H as [H|(y & _ & H)].
  - exact (proj2 (get_member_throws _ _ _ H)).
  - apply bind_throws in H. destruct H as [H|(ys & _ & H)];
      [exact (IH H)|discriminate].
Qed.

Lemma Array_map_throws (v : jsvalue) (e : js_error) :
  Array_map (fun error => member (Some error) "message") v = Throw e ->
  e = TypeError.
Proof.
  destruct v as [[| b | x | s | items | fields]|]; simpl; try congruence.
  apply messages_throw.
Qed.

Lemma Array_join_throws (separator : string) (l : list jsvalue)
  (e : js_error) :
  Array_join separator l = Throw e -> e = TypeError.
Proof.
  induction l as [|x r IH]; [discriminate|].
  intros H. cbn [Array_join] in H.
  apply bind_throws in H. destruct H as [H|(s & _ & H)].
  - destruct x as [[| b | y | t | items | fields]|]; try discriminate;
      exact (ToString_throws _ _ H).
  - destruct r as [|y r']; [discriminate|].
    apply bind_throws in H. destruct H as [H|(t & _ & H)];
      [exact (IH H)|discriminate].
Qed.

Lemma mutation_result_throws (v : jsvalue) (key : string) (e : js_error) :
  mutation_result v key = Throw e -> e = TypeError.
Proof.
  unfold mutation_result. intros H.
  apply bind_throws in H. destruct H as [H|(b & _ & H)];
    [exact (member_throws _ _ _ H)|].
  apply bind_throws in H. destruct H as [H|(d & _ & H)];
    exact (member_throws _ _ _ H).
Qed.

Lemma create_request_throws (payload : json) (e : js_error) :
  create_request payload = Throw e -> e = TypeError.
Proof.
  unfold create_request. intros H.
  apply bind_throws in H. destruct H as [H|(f & _ & H)];
    [exact (proj2 (get_member_throws _ _ _ H))|].
  apply bind_throws in H. destruct H as [H|(pm & _ & H)];
    [exact (proj2 (get_member_throws _ _ _ H))|].
  apply bind_throws in H. destruct H as [H|(mt & _ & H)];
    [exact (ToString_throws _ _ H)|].
  apply bind_throws in H. destruct H as [H|(ct & _ & H)];
    [exact (proj2 (get_member_throws _ _ _ H))|].
  apply bind_throws in H. destruct H as [H|(tt & _ & H)];
    [exact (ToString_throws _ _ H)|discriminate].
Qed.

Lemma metafield_request_throws (payload : json) (id : jsvalue)
  (e : js_error) :
  metafield_request payload id = Throw e -> e = TypeError.
Proof.
  unfold metafield_request. intros H.
  apply bind_throws in H. destruct H as [H|(pm & _ & H)];
    [exact (proj2 (get_member_throws _ _ _ H))|].
  apply bind_throws in H. destruct H as [H|(ct & _ & H)];
    [exact (proj2 (get_member_throws _ _ _ H))|discriminate].
Qed.

(** ** [handleUserError] *)

(** Whether [handleUserError] sees errors: [userErrors && userErrors.length
    > 0]. *)
Lemma handleUserError_cases (userErrors : jsvalue) (w : World) :
  response w = None ->
  handleUserError userErrors w = (w, Normal false)
  \/ (exists message,
         handleUserError userErrors w
         = ({| queries := queries w;
               response :=
                 Some {| status := 500;
                         body := ErrorBody (Some (JStr message)) |} |},
            Normal true))
  \/ handleUserError userErrors w = (w, Throw TypeError).
Proof.
  intros Hw. unfold handleUserError, ebind, lift, ret, res_status_send.
  destruct (ToBoolean userErrors); [|left; reflexivity].
  destruct (length_of userErrors) as [len|e] eqn:Hl;
    [|rewrite (length_of_throws _ _ Hl); right; right; reflexivity].
  destruct (ToNumber len) as [n|e] eqn:Hn;
    [|rewrite (ToNumber_throws _ _ Hn); right; right; reflexivity].
  destruct (Number.gt n Number.zero); [|left; reflexivity].
  destruct (Array_map _ userErrors) as [messages|e] eqn:Hm;
    [|rewrite (Array_map_throws _ _ Hm); right; right; reflexivity].
  destruct (Array_join " " messages) as [message|e] eqn:Hj;
    [|rewrite (Array_join_throws _ _ _ Hj); right; right; reflexivity].
  rewrite Hw. right; left. exists message. reflexivity.
Qed.

(** A non-empty array is never let through. *)
Lemma handleUserError_nonempty (e : json) (items : list json) (w : World) :
  handleUserError (Some (JArr (e :: items))) w <> (w, Normal false).
Proof.
  unfold handleUserError, ebind, lift, ret, res_status_send.
  cbn [ToBoolean length_of ToNumber ToNumber_json List.length].
  rewrite of_length_positive. cbv beta iota.
  destruct (Array_map _ _) as [messages|err]; [|discriminate].
  destruct (Array_join " " messages) as [message|err]; [|discriminate].
  destruct (response w); discriminate.
Qed.

(** ** The course of a request *)

(** How far the [try] block gets, and what it leaves behind. *)
Lemma create_and_configure_anatomy
  (graphql : GraphqlRequest -> completion json) (payload : json) :
  (create_request payload = Throw TypeError
   /\ create_and_configure graphql payload start = (start, Throw TypeError))
  \/ exists request,
       create_request payload = Normal request
       /\ ((exists e,
               graphql request = Throw e
               /\ create_and_configure graphql payload start
                  = ({| queries := [request]; response := None |}, Throw e))
           \/ exists createResponse,
                graphql request = Normal createResponse
                /\ (create_and_configure graphql payload start
                    = ({| queries := [request]; response := None |},
                       Throw TypeError)
                    \/ (exists message,
                           create_and_configure graphql payload start
                           = ({| queries := [request];
                                 response :=
                                   Some {| status := 500;
                                           body :=
                                             ErrorBody
                                               (Some (JStr message)) |} |},
                              Normal true))
                    \/ exists createResult userErrors customization
                              customizationId request2,
                         mutation_result (Some createResponse)
                           "paymentCustomizationCreate"
                         = Normal createResult
                         /\ member createResult "userErrors" = Normal userErrors
                         /\ handleUserError userErrors
                              {| queries := [request]; response := None |}
                            = ({| queries := [request]; response := None |},
                               Normal false)
                         /\ member createResult "paymentCustomization"
                            = Normal customization
                         /\ member customization "id" = Normal customizationId
                         /\ metafield_request payload customizationId
                            = Normal request2
                         /\ ((exists e,
                                 graphql request2 = Throw e
                                 /\ create_and_configure graphql payload start
                                    = ({| queries := [request; request2];
                                          response := None |}, Throw e))
                             \/ exists metafieldResponse,
                                  graphql request2 = Normal metafieldResponse
                                  /\ (create_and_configure graphql payload start
                                      = ({| queries := [request; request2];
                                            response := None |},
                                         Throw TypeError)
                                      \/ (exists message,
                                             create_and_configure graphql
                                               payload start
                                             = ({| queries :=
                                                     [request; request2];
                                                   response :=
                                                     Some
                                                       {| status := 500;
                                                          body :=
                                                            ErrorBody
                                                              (Some
                                                                 (JStr
                                                                    message))
                                          |} |},
                                                Normal true))
                                      \/ create_and_configure graphql payload
                                           start
                                         = ({| queries := [request; request2];
                                               response := None |},
                                            Normal false))))).
Proof.
  unfold create_and_configure, ebind, lift, graphqlClient_query, start.
  destruct (create_request payload) as [request|e] eqn:Hq;
    [|rewrite (create_request_throws _ _ Hq); left; auto].
  right. exists request. split; [reflexivity|]. simpl.
  destruct (graphql request) as [createResponse|e] eqn:Hg; simpl;
    [|left; exists e; auto].
  right. exists createResponse. split; [reflexivity|].
  destruct (mutation_result (Some createResponse) "paymentCustomizationCreate")
    as [createResult|e] eqn:Hr;
    [|rewrite (mutation_result_throws _ _ _ Hr); left; reflexivity].
  destruct (member createResult "userErrors") as [userErrors|e] eqn:Hu;
    [|rewrite (member_throws _ _ _ Hu); left; reflexivity].
  destruct (handleUserError_cases userErrors
              {| queries := [request]; response := None |} eq_refl)
    as [Hh|[(message & Hh)|Hh]]; rewrite Hh;
    [|right; left; exists message; reflexivity|left; reflexivity].
  cbv beta iota.
  destruct (member createResult "paymentCustomization")
    as [customization|e] eqn:Hc;
    [|rewrite (member_throws _ _ _ Hc); left; reflexivity].
  destruct (member customization "id") as [customizationId|e] eqn:Hi;
    [|rewrite (member_throws _ _ _ Hi); left; reflexivity].
  destruct (metafield_request payload customizationId) as [request2|e] eqn:Hq2;
    [|rewrite (metafield_request_throws _ _ _ Hq2); left; reflexivity].
  right; right.
  exists createResult, userErrors, customization, customizationId, request2.
  repeat (split; [first [reflexivity|assumption]|]).
  simpl.
  destruct (graphql request2) as [metafieldResponse|e] eqn:Hg2; simpl;
    [|left; exists e; auto].
  right. exists metafieldResponse. split; [reflexivity|].
  destruct (mutation_result (Some metafieldResponse) "metafieldsSet")
    as [metafieldResult|e] eqn:Hr2;
    [|rewrite (mutation_result_throws _ _ _ Hr2); left; reflexivity].
  destruct (handleUserError_cases metafieldResult
              {| queries := [request; request2]; response := None |} eq_refl)
    as [Hh2|[(message & Hh2)|Hh2]]; rewrite Hh2;
    [right; right; reflexivity|right; left; exists message; reflexivity
    |left; reflexivity].
Qed.

Ltac enter_create :=
  unfold create, try_catch, ebind, ret, throw, res_status_send.

(** X8.  However the Admin API behaves and whatever the request body is,
    the handler sends at most two requests and ends in one of two ways:
    it completes having written exactly one response, which is 200 without
    a body or a 500; or it throws having written none, and what it throws
    is never a GraphqlQueryError. *)
Theorem create_answers_once_or_throws
  (graphql : GraphqlRequest -> completion json) (payload : json) :
  (List.length (queries (fst (create graphql payload start))) <= 2)%nat
  /\ ((snd (create graphql payload start) = Normal tt
       /\ exists a,
            response (fst (create graphql payload start)) = Some a
            /\ (a = {| status := 200; body := NoBody |} \/ status a = 500))
      \/ (exists e,
             snd (create graphql payload start) = Throw e
             /\ response (fst (create graphql payload start)) = None
             /\ forall r, e <> GraphqlQueryError r)).
Proof.
  assert (Thrown : forall w e,
             response w = None ->
             (List.length (queries w) <= 2)%nat ->
             create_and_configure graphql payload start = (w, Throw e) ->
             (List.length (queries (fst (create graphql payload start)))
              <= 2)%nat
             /\ ((snd (create graphql payload start) = Normal tt
                  /\ exists a,
                       response (fst (create graphql payload start)) = Some a
                       /\ (a = {| status := 200; body := NoBody |}
                           \/ status a = 500))
                 \/ (exists e',
                        snd (create graphql payload start) = Throw e'
                        /\ response (fst (create graphql payload start)) = None
                        /\ forall r, e' <> GraphqlQueryError r))).
  { intros w e Hw Hlen H. enter_create. rewrite H.
    destruct e as [| |r|m]; simpl; try rewrite Hw; simpl;
      (split; [exact Hlen|]);
      try (right; eexists; split; [reflexivity|];
           split; [first [exact Hw|reflexivity]|]; intros r'; discriminate).
    left. split; [reflexivity|]. eexists. split; [reflexivity|]. right.
    reflexivity. }
  assert (Answered : forall requests message,
             (List.length requests <= 2)%nat ->
             create_and_configure graphql payload start
             = ({| queries := requests;
                   response :=
                     Some {| status := 500;
                             body := ErrorBody (Some (JStr message)) |} |},
                Normal true) ->
             (List.length (queries (fst (create graphql payload start)))
              <= 2)%nat
             /\ ((snd (create graphql payload start) = Normal tt
                  /\ exists a,
                       response (fst (create graphql payload start)) = Some a
                       /\ (a = {| status := 200; body := NoBody |}
                           \/ status a = 500))
                 \/ (exists e',
                        snd (create graphql payload start) = Throw e'
                        /\ response (fst (create graphql payload start)) = None
                        /\ forall r, e' <> GraphqlQueryError r))).
  { intros requests message Hlen H. enter_create. rewrite H. simpl.
    split; [exact Hlen|]. left. split; [reflexivity|].
    eexists. split; [reflexivity|]. right. reflexivity. }
  destruct (create_and_configure_anatomy graphql payload)
    as [(_ & H)|(request & _ & [(e & _ & H)|(createResponse & _ & H)])].
  - refine (Thrown start _ eq_refl _ H). simpl; lia.
  - refine (Thrown {| queries := [request]; response := None |} _ eq_refl _ H).
    simpl; lia.
  - destruct H as [H|[(message & H)|H]].
    + refine (Thrown {| queries := [request]; response := None |} _
                eq_refl _ H).
      simpl; lia.
    + apply (Answered [request] message); [simpl; lia|exact H].
    + destruct H as (createResult & userErrors & customization
                     & customizationId & request2 & _ & _ & _ & _ & _ & _ & H).
      destruct H as [(e & _ & H)|(metafieldResponse & _ & H)].
      * refine (Thrown {| queries := [request; request2]; response := None |}
                  _ eq_refl _ H).
        simpl; lia.
      * destruct H as [H|[(message & H)|H]].
        -- refine (Thrown
                     {| queries := [request; request2]; response := None |}
                     _ eq_refl _ H).
           simpl; lia.
        -- apply (Answered [request; request2] message); [simpl; lia|exact H].
        -- enter_create. rewrite H. simpl. split; [lia|].
           left. split; [reflexivity|]. eexists. split; [reflexivity|].
           left. reflexivity.
Qed.

(** What a throwing [try] block leaves behind: no response, and an error
    that is a TypeError unless the client has thrown it on a request that
    was sent. *)
Lemma try_block_throws
  (graphql : GraphqlRequest -> completion json) (payload : json)
  (w : World) (e : js_error) :
  create_and_configure graphql payload start = (w, Throw e) ->
  response w = None
  /\ (e = TypeError
      \/ exists request, In request (queries w) /\ graphql request = Throw e).
Proof.
  intros H.
  destruct (create_and_configure_anatomy graphql payload)
    as [(_ & H')|(request & _ & [(e' & Hg & H')|(createResponse & _ & H')])].
  - rewrite H' in H. injection H as <- <-. auto.
  - rewrite H' in H. injection H as <- <-. split; [reflexivity|].
    right. exists request. simpl. auto.
  - destruct H' as [H'|[(message & H')|H']];
      try (rewrite H' in H; injection H as <- <-; auto; fail);
      try (rewrite H' in H; discriminate).
    destruct H' as (createResult & userErrors & customization
                    & customizationId & request2 & _ & _ & _ & _ & _ & _ & H').
    destruct H' as [(e' & Hg & H')|(metafieldResponse & _ & H')].
    + rewrite H' in H. injection H as <- <-. split; [reflexivity|].
      right. exists request2. simpl. auto.
    + destruct H' as [H'|[(message & H')|H']];
        try (rewrite H' in H; injection H as <- <-; auto; fail);
        rewrite H' in H; discriminate.
Qed.

(** X9.  A GraphqlQueryError in the [try] block can only be the client's,
    thrown on a request that was sent; the handler answers it with status
    500 and the error's [response] as [error], and completes. *)
Theorem client_error_is_answered_500
  (graphql : GraphqlRequest -> completion json) (payload : json)
  (w : World) (r : jsvalue) :
  create_and_configure graphql payload start
  = (w, Throw (GraphqlQueryError r)) ->
  create graphql payload start
  = ({| queries := queries w;
        response := Some {| status := 500; body := ErrorBody r |} |},
     Normal tt)
  /\ exists request,
       In request (queries w)
       /\ graphql request = Throw (GraphqlQueryError r).
Proof.
  intros H. destruct (try_block_throws _ _ _ _ H) as [Hw [Ht|Hc]];
    [discriminate Ht|].
  split; [|exact Hc].
  enter_create. rewrite H. simpl. rewrite Hw. reflexivity.
Qed.

Lemma client_error_is_answered_500_witness :
  create (api (Normal (created "gid://1" []))
            (Throw (GraphqlQueryError (Some (JStr "Bad Gateway")))))
    form start
  = ({| queries := [form_create; form_configure];
        response :=
          Some {| status := 500;
                  body := ErrorBody (Some (JStr "Bad Gateway")) |} |},
     Normal tt)
  /\ exists request,
       In request [form_create; form_configure]
       /\ api (Normal (created "gid://1" []))
            (Throw (GraphqlQueryError (Some (JStr "Bad Gateway")))) request
          = Throw (GraphqlQueryError (Some (JStr "Bad Gateway"))).
Proof.
  apply (client_error_is_answered_500
           (api (Normal (created "gid://1" []))
              (Throw (GraphqlQueryError (Some (JStr "Bad Gateway")))))
           form
           {| queries := [form_create; form_configure]; response := None |}
           (Some (JStr "Bad Gateway"))).
  vm_compute; reflexivity.
Defined.

(** X10.  Any other error thrown in the [try] block is thrown again by the
    handler, which leaves the request without a response. *)
Theorem other_errors_are_rethrown
  (graphql : GraphqlRequest -> completion json) (payload : json)
  (w : World) (e : js_error) :
  create_and_configure graphql payload start = (w, Throw e) ->
  (forall r, e <> GraphqlQueryError r) ->
  create graphql payload start = (w, Throw e) /\ response w = None.
Proof.
  intros H He. split; [|exact (proj1 (try_block_throws _ _ _ _ H))].
  enter_create. rewrite H.
  destruct e as [| |r|m]; try reflexivity. now elim (He r).
Qed.

Lemma other_errors_are_rethrown_witness :
  create (api (Throw (Error "socket hang up")) (Normal (metafields_set [])))
    form start
  = ({| queries := [form_create]; response := None |},
     Throw (Error "socket hang up"))
  /\ response {| queries := [form_create]; response := None |} = None.
Proof.
  apply (other_errors_are_rethrown
           (api (Throw (Error "socket hang up")) (Normal (metafields_set [])))
           form {| queries := [form_create]; response := None |}
           (Error "socket hang up")).
  - vm_compute; reflexivity.
  - intros r; discriminate.
Defined.

(** X11.  [handleUserError] never sends a request, returns [true] exactly
    when it has written the response, and otherwise leaves everything as it
    was; on [null], [undefined] and the empty array it returns [false]. *)
Theorem handleUserError_answers_when_true (userErrors : jsvalue) (w : World) :
  response w = None ->
  queries (fst (handleUserError userErrors w)) = queries w
  /\ (snd (handleUserError userErrors w) = Normal true
      <-> response (fst (handleUserError userErrors w)) <> None)
  /\ (snd (handleUserError userErrors w) <> Normal true ->
      fst (handleUserError userErrors w) = w)
  /\ (ToBoolean userErrors = false \/ userErrors = Some (JArr []) ->
      handleUserError userErrors w = (w, Normal false)).
Proof.
  intros Hw.
  split; [|split; [|split]].
  - destruct (handleUserError_cases userErrors w Hw)
      as [H|[(message & H)|H]]; rewrite H; reflexivity.
  - destruct (handleUserError_cases userErrors w Hw)
      as [H|[(message & H)|H]]; rewrite H; simpl;
      (split; [intros E; try discriminate E|intros E; try reflexivity]);
      try (now elim E); try (rewrite Hw; discriminate); discriminate.
  - destruct (handleUserError_cases userErrors w Hw)
      as [H|[(message & H)|H]]; rewrite H; simpl; intros E;
      try reflexivity. now elim E.
  - intros [H| ->]; unfold handleUserError, ebind, lift, ret;
      [rewrite H; reflexivity|reflexivity].
Qed.

Lemma handleUserError_answers_when_true_witness :
  queries (fst (handleUserError (Some (JArr [user_error "Invalid value"]))
                  start))
  = queries start
  /\ (snd (handleUserError (Some (JArr [user_error "Invalid value"])) start)
      = Normal true
      <-> response
            (fst (handleUserError (Some (JArr [user_error "Invalid value"]))
                    start))
          <> None)
  /\ (snd (handleUserError (Some (JArr [user_error "Invalid value"])) start)
      <> Normal true ->
      fst (handleUserError (Some (JArr [user_error "Invalid value"])) start)
      = start)
  /\ (ToBoolean (Some (JArr [user_error "Invalid value"])) = false
      \/ Some (JArr [user_error "Invalid value"]) = Some (JArr []) ->
      handleUserError (Some (JArr [user_error "Invalid value"])) start
      = (start, Normal false)).
Proof.
  apply (handleUserError_answers_when_true
           (Some (JArr [user_error "Invalid value"])) start).
  reflexivity.
Defined.

(** ** The two requests *)

Lemma create_request_shape (payload : json) (request : GraphqlRequest) :
  create_request payload = Normal request ->
  exists functionId title,
    request = PaymentCustomizationCreate functionId title true.
Proof.
  unfold create_request. intros H.
  destruct (get_member payload "functionId") as [f|]; [|discriminate].
  destruct (get_member payload "paymentMethod") as [pm|]; [|discriminate].
  simpl in H. destruct (ToString pm) as [mt|]; [|discriminate].
  destruct (get_member payload "cartTotal") as [ct|]; [|discriminate].
  simpl in H. destruct (ToString ct) as [tt|]; [|discriminate].
  injection H as <-. eauto.
Qed.

Lemma metafield_request_shape (payload : json) (id : jsvalue)
  (request : GraphqlRequest) :
  metafield_request payload id = Normal request ->
  exists paymentMethod cartTotal,
    get_member payload "paymentMethod" = Normal paymentMethod
    /\ get_member payload "cartTotal" = Normal cartTotal
    /\ request = MetafieldsSet id paymentMethod cartTotal.
Proof.
  unfold metafield_request. intros H.
  destruct (get_member payload "paymentMethod") as [pm|]; [|discriminate].
  destruct (get_member payload "cartTotal") as [ct|]; [|discriminate].
  injection H as <-. eauto.
Qed.

(** After the [try] block the handler sends no request. *)
Lemma create_keeps_queries
  (graphql : GraphqlRequest -> completion json) (payload : json)
  (w : World) (r : completion bool) :
  create_and_configure graphql payload start = (w, r) ->
  queries (fst (create graphql payload start)) = queries w.
Proof.
  intros H. enter_create. rewrite H.
  destruct r as [[|]|[| |x|m]]; simpl; try reflexivity;
    destruct (response w); reflexivity.
Qed.

(** X12.  The configuration metafield is written only after a first
    mutation that was answered, whose [userErrors] were not a non-empty
    array, and whose [paymentCustomization] was neither [null] nor
    [undefined].  The second request carries what [.id] gives on that
    customization, which is [undefined] when it has no [id], with the
    [paymentMethod] and the [cartTotal] of the request body; it is the
    second and last of the requests sent. *)
Theorem configuration_is_written_after_a_clean_create
  (graphql : GraphqlRequest -> completion json) (payload : json)
  (id paymentMethod cartTotal : jsvalue) :
  In (MetafieldsSet id paymentMethod cartTotal)
    (queries (fst (create graphql payload start))) ->
  exists request createResponse createResult userErrors customization,
    create_request payload = Normal request
    /\ graphql request = Normal createResponse
    /\ mutation_result (Some createResponse) "paymentCustomizationCreate"
       = Normal createResult
    /\ member createResult "userErrors" = Normal userErrors
    /\ (forall e items, userErrors <> Some (JArr (e :: items)))
    /\ member createResult "paymentCustomization" = Normal customization
    /\ customization <> None
    /\ customization <> Some JNull
    /\ member customization "id" = Normal id
    /\ get_member payload "paymentMethod" = Normal paymentMethod
    /\ get_member payload "cartTotal" = Normal cartTotal
    /\ queries (fst (create graphql payload start))
       = [request; MetafieldsSet id paymentMethod cartTotal].
Proof.
  intros Hin.
  assert (No : forall request w r,
             create_request payload = Normal request ->
             create_and_configure graphql payload start = (w, r) ->
             queries w = [] \/ queries w = [request] -> False).
  { intros request w r Hq H Hqs.
    rewrite (create_keeps_queries _ _ _ _ H) in Hin.
    destruct (create_request_shape _ _ Hq) as (f & t & ->).
    destruct Hqs as [E|E]; rewrite E in Hin; simpl in Hin;
      [exact Hin|destruct Hin as [Hin|[]]; discriminate]. }
  destruct (create_and_configure_anatomy graphql payload)
    as [(Hq & H)|(request & Hq & [(e & Hg & H)|(createResponse & Hg & H)])].
  - rewrite (create_keeps_queries _ _ _ _ H) in Hin. destruct Hin.
  - exfalso. apply (No _ _ _ Hq H). auto.
  - destruct H as [H|[(message & H)|H]];
      try (exfalso; apply (No _ _ _ Hq H); auto; fail).
    destruct H as (createResult & userErrors & customization
                   & customizationId & request2
                   & Hr & Hu & Hh & Hc & Hi & Hq2 & H).
    destruct (metafield_request_shape _ _ _ Hq2) as (pm & ct & Hpm & Hct & ->).
    destruct (create_request_shape _ _ Hq) as (f & t & E).
    assert (Hqs : queries (fst (create graphql payload start))
                  = [request; MetafieldsSet customizationId pm ct]).
    { destruct H as [(e & _ & H)|(metafieldResponse & _ & [H|[(m & H)|H]])];
        rewrite (create_keeps_queries _ _ _ _ H); reflexivity. }
    rewrite Hqs in Hin. destruct Hin as [Hin|[Hin|[]]];
      [rewrite E in Hin; discriminate|].
    injection Hin as -> -> ->.
    exists request, createResponse, createResult, userErrors, customization.
    repeat (split; [assumption|]).
    split; [intros e items ->; exact (handleUserError_nonempty _ _ _ Hh)|].
    split; [assumption|].
    split; [intros ->; discriminate|].
    split; [intros ->; discriminate|].
    repeat (split; [assumption|]). exact Hqs.
Qed.

Lemma configuration_is_written_after_a_clean_create_witness :
  exists request createResponse createResult userErrors customization,
    create_request form = Normal request
    /\ api (Normal (created "gid://1" [])) (Normal (metafields_set [])) request
       = Normal createResponse
    /\ mutation_result (Some createResponse) "paymentCustomizationCreate"
       = Normal createResult
    /\ member createResult "userErrors" = Normal userErrors
    /\ (forall e items, userErrors <> Some (JArr (e :: items)))
    /\ member createResult "paymentCustomization" = Normal customization
    /\ customization <> None
    /\ customization <> Some JNull
    /\ member customization "id" = Normal (Some (JStr "gid://1"))
    /\ get_member form "paymentMethod" = Normal (Some (JStr "COD"))
    /\ get_member form "cartTotal"
       = Normal (Some (JNum (Number.of_decimal false 100 0)))
    /\ queries
         (fst (create (api (Normal (created "gid://1" []))
                         (Normal (metafields_set [])))
                 form start))
       = [request; form_configure].
Proof.
  apply (configuration_is_written_after_a_clean_create
           (api (Normal (created "gid://1" [])) (Normal (metafields_set [])))
           form (Some (JStr "gid://1")) (Some (JStr "COD"))
           (Some (JNum (Number.of_decimal false 100 0)))).
  vm_compute. right. left. reflexivity.
Defined.

Lemma messages_of_items (items : list json) (messages : list string) :
  Forall2 (fun item m => get_member item "message" = Normal (Some (JStr m)))
    items messages ->
  map_completion (fun error => get_member error "message") items
  = Normal (map (fun m => Some (JStr m)) messages).
Proof.
  induction 1 as [|item m items messages Hm _ IH]; simpl; [reflexivity|].
  rewrite Hm. simpl. rewrite IH. reflexivity.
Qed.

(** X13.  When the first mutation answers with a non-empty array of user
    errors, each an object with a string [message], the handler responds
    with status 500 and [{ error }] where [error] is the messages in order,
    joined by single spaces; the first request is the only one sent. *)
Theorem create_user_errors_are_joined
  (graphql : GraphqlRequest -> completion json) (payload : json)
  (request : GraphqlRequest) (createResponse : json) (createResult : jsvalue)
  (items : list json) (messages : list string) :
  create_request payload = Normal request ->
  graphql request = Normal createResponse ->
  mutation_result (Some createResponse) "paymentCustomizationCreate"
  = Normal createResult ->
  member createResult "userErrors" = Normal (Some (JArr items)) ->
  items <> [] ->
  Forall2 (fun item m => get_member item "message" = Normal (Some (JStr m)))
    items messages ->
  create graphql payload start
  = ({| queries := [request];
        response :=
          Some {| status := 500;
                  body :=
                    ErrorBody (Some (JStr (String.concat " " messages))) |} |},
     Normal tt).
Proof.
  intros Hq Hg Hr Hu Hne Hm. enter_handler.
  rewrite Hq. simpl. rewrite Hg. simpl. rewrite Hr, Hu.
  destruct items as [|item items]; [now elim Hne|].
  cbn [ToBoolean length_of ToNumber ToNumber_json List.length].
  rewrite of_length_positive. cbv beta iota.
  assert (Hmap : @map_completion json jsvalue
                   (fun error => get_member error "message") (item :: items)
                 = Normal (map (fun m => Some (JStr m)) messages))
    by exact (messages_of_items _ _ Hm).
  cbn [Array_map]. rewrite Hmap, join_of_strings. reflexivity.
Qed.

Lemma create_user_errors_are_joined_witness :
  create (api (Normal (created "gid://1" ["Function not found"; "Try again"]))
            (Normal (metafields_set [])))
    form start
  = ({| queries := [form_create];
        response :=
          Some {| status := 500;
                  body :=
                    ErrorBody
                      (Some (JStr "Function not found Try again")) |} |},
     Normal tt).
Proof.
  apply (create_user_errors_are_joined _ form form_create
           (created "gid://1" ["Function not found"; "Try again"])
           (Some (JObj [("paymentCustomization", JObj [("id", JStr "gid://1")]);
                        ("userErrors",
                         JArr (map user_error
                                 ["Function not found"; "Try again"]))]))
           (map user_error ["Function not found"; "Try again"])
           ["Function not found"; "Try again"]).
  - vm_compute; reflexivity.
  - reflexivity.
  - reflexivity.
  - reflexivity.
  - discriminate.
  - repeat constructor.
Defined.

Lemma handleUserError_unseen (v : jsvalue) (w : World) :
  unseen v -> handleUserError v w = (w, Normal false).
Proof.
  intros [H|[->|(fields & -> & H)]];
    unfold handleUserError, ebind, lift, ret; simpl;
    rewrite ?H; reflexivity.
Qed.



(** X15.  The handler trusts the first answer: when it shows no user
    errors and holds no customization ([null] or nothing under
    [paymentCustomization]), reading the [id] throws a TypeError; the
    handler throws it on, the second mutation is not sent and the request
    gets no response. *)
Theorem missing_customization_is_not_answered
  (graphql : GraphqlRequest -> completion json) (payload : json)
  (request : GraphqlRequest) (createResponse : json)
  (createResult userErrors customization : jsvalue) :
  create_request payload = Normal request ->
  graphql request = Normal createResponse ->
  mutation_result (Some createResponse) "paymentCustomizationCreate"
  = Normal createResult ->
  member createResult "userErrors" = Normal userErrors ->
  unseen userErrors ->
  member createResult "paymentCustomization" = Normal customization ->
  customization = None \/ customization = Some JNull ->
  create graphql payload start
  = ({| queries := [request]; response := None |}, Throw TypeError).
Proof.
  intros Hq Hg Hr Hu Hs Hc Hnone.
  unfold create, try_catch, create_and_configure, ebind, lift,
    graphqlClient_query.
  rewrite Hq. simpl. rewrite Hg. simpl. rewrite Hr, Hu.
  rewrite (handleUserError_unseen _ _ Hs). cbv beta iota.
  rewrite Hc. destruct Hnone as [-> | ->]; reflexivity.
Qed.

Lemma missing_customization_is_not_answered_witness :
  create
    (api (Normal (answer "paymentCustomizationCreate"
                    (JObj [("paymentCustomization", JNull);
                           ("userErrors", JArr [])])))
       (Normal (metafields_set [])))
    form start
  = ({| queries := [form_create]; response := None |}, Throw TypeError).
Proof.
  apply (missing_customization_is_not_answered _ form form_create
           (answer "paymentCustomizationCreate"
              (JObj [("paymentCustomization", JNull);
                     ("userErrors", JArr [])]))
           (Some (JObj [("paymentCustomization", JNull);
                        ("userErrors", JArr [])]))
           (Some (JArr [])) (Some JNull));
    try (vm_compute; reflexivity).
  - right; left; reflexivity.
  - right; reflexivity.
Defined.

(** ** [GET /api/products/create] *)

(** X16.  Whatever [productCreator] does, the handler of
    [/api/products/create] completes and writes exactly one response.
    [success] is true exactly when [productCreator] resolved; the status is
    then 200, [error] is [null] and nothing is logged.  When it rejected,
    the status is 500, [error] is the message of the error, and one line
    with that message is logged. *)
Theorem products_create_always_answers
  (productCreator : completion unit) (message : js_error -> string) :
  exists a lines,
    Products.create productCreator message Products.start
    = ({| Products.console := lines; Products.response := Some a |},
       Normal tt)
    /\ (Products.success a = true <-> productCreator = Normal tt)
    /\ (Products.success a = true <-> Products.status a = 200)
    /\ (Products.success a = true ->
        Products.error a = Some JNull /\ lines = [])
    /\ (forall e,
           productCreator = Throw e ->
           Products.status a = 500
           /\ Products.error a = Some (JStr (message e))
           /\ lines
              = ["Failed to process products/create: " ++ message e]).
Proof.
  unfold Products.create, try_catch, ebind, lift, ret, Products.console_log,
    Products.res_status_send, Products.start.
  destruct productCreator as [[]|e]; simpl.
  - do 2 eexists. split; [reflexivity|]. simpl.
    split; [split; reflexivity|]. split; [split; reflexivity|].
    split; [auto|]. intros e H. discriminate H.
  - do 2 eexists. split; [reflexivity|]. simpl.
    split; [split; discriminate|]. split; [split; discriminate|].
    split; [discriminate|]. intros e' H. injection H as <-. auto.
Qed.

Example products_create_resolved_and_rejected :
  Products.create (Normal tt) (fun _ => "boom") Products.start
  = ({| Products.console := [];
        Products.response :=
          Some {| Products.status := 200; Products.success := true;
                  Products.error := Some JNull |} |},
     Normal tt)
  /\ Products.create (Throw (Error "boom")) (fun _ => "boom") Products.start
     = ({| Products.console := ["Failed to process products/create: boom"];
           Products.response :=
             Some {| Products.status := 500; Products.success := false;
                     Products.error := Some (JStr "boom") |} |},
        Normal tt).
Proof. split; reflexivity. Qed.

(** ** A request body that lacks the settings *)

(** X17.  The handler does not validate the request body.  When the body
    is an object without [paymentMethod] and without [cartTotal], the first
    mutation is sent all the same, for whatever [functionId] the body
    holds, under the title made of the text [undefined] twice. *)
Theorem body_without_settings_is_sent
  (graphql : GraphqlRequest -> completion json)
  (fields : list (string * json)) :
  assoc_last fields "paymentMethod" = None ->
  assoc_last fields "cartTotal" = None ->
  exists rest,
    queries (fst (create graphql (JObj fields) start))
    = PaymentCustomizationCreate (assoc_last fields "functionId")
        "Move undefined if cart total is less than undefined" true
      :: rest.
Proof.
  intros Hpm Hct.
  assert (Hq : create_request (JObj fields)
               = Normal
                   (PaymentCustomizationCreate (assoc_last fields "functionId")
                      "Move undefined if cart total is less than undefined"
                      true)).
  { unfold create_request. simpl. rewrite Hpm, Hct. reflexivity. }
  destruct (create_and_configure_anatomy graphql (JObj fields))
    as [(Hq' & _)|(request & Hq' & H)]; rewrite Hq in Hq';
    [discriminate|].
  injection Hq' as <-.
  destruct H as [(e & _ & H)|(createResponse & _ & [H|[(m & H)|H]])];
    try (rewrite (create_keeps_queries _ _ _ _ H); eexists; reflexivity).
  destruct H as (createResult & userErrors & customization & customizationId
                 & request2 & _ & _ & _ & _ & _ & _ & H).
  destruct H as [(e & _ & H)|(metafieldResponse & _ & [H|[(m & H)|H]])];
    rewrite (create_keeps_queries _ _ _ _ H); eexists; reflexivity.
Qed.

Lemma body_without_settings_is_sent_witness :
  exists rest,
    queries
      (fst (create (api (Normal (created "gid://1" []))
                      (Normal (metafields_set [])))
              (JObj [("functionId", JStr "function-1")]) start))
    = PaymentCustomizationCreate
        (assoc_last [("functionId", JStr "function-1")] "functionId")
        "Move undefined if cart total is less than undefined" true
      :: rest.
Proof.
  apply (body_without_settings_is_sent
           (api (Normal (created "gid://1" [])) (Normal (metafields_set [])))
           [("functionId", JStr "function-1")]);
    reflexivity.
Defined.

(** * Payment methods that do not matter *)

Lemma find_in_matching (needle : string) (l : list PaymentMethod) :
  List.find (fun method => Str.includes (name method) needle)
    (matching needle l)
  = List.find (fun method => Str.includes (name method) needle) l.
Proof.
  unfold matching. induction l as [|x l IH]; simpl; [reflexivity|].
  destruct (Str.includes (name x) needle) eqn:Hx; simpl;
    [rewrite Hx; reflexivity|exact IH].
Qed.

Lemma Array_find_needle (configured_name : jsvalue) (needle : string)
  (l : list PaymentMethod) :
  ToString configured_name = Normal needle ->
  Array_find (fun method => String_includes (name method) configured_name) l
  = Normal (List.find (fun method => Str.includes (name method) needle) l).
Proof.
  intros Hs. induction l as [|x l IH]; simpl; [reflexivity|].
  unfold String_includes at 1. rewrite Hs. simpl.
  destruct (Str.includes (name x) needle); [reflexivity|exact IH].
Qed.

(** X18.  The payment methods whose names do not contain the configured
    name play no part: with them left out of the input, in any number and
    at any place, the function logs and returns the same. *)
Theorem other_methods_do_not_matter
  (input : InputQuery) (configured_name configured_total : jsvalue)
  (needle : string) :
  reads input configured_name configured_total ->
  ToString configured_name = Normal needle ->
  run (with_methods input (matching needle (paymentMethods input)))
  = run input.
Proof.
  intros Hr Hs.
  rewrite (run_when_read input _ _ Hr).
  rewrite (run_when_read (with_methods input _) configured_name
             configured_total) by exact Hr.
  change (cart_total (with_methods input
                        (matching needle (paymentMethods input))))
    with (cart_total input).
  change (paymentMethods (with_methods input
                            (matching needle (paymentMethods input))))
    with (matching needle (paymentMethods input)).
  rewrite !(Array_find_needle _ _ _ Hs), find_in_matching. reflexivity.
Qed.

Lemma other_methods_do_not_matter_witness :
  run (with_methods
         (checkout (configuration_text "COD" "100") (Some "50.00") methods)
         (matching "COD" methods))
  = run (checkout (configuration_text "COD" "100") (Some "50.00") methods).
Proof.
  apply (other_methods_do_not_matter
           (checkout (configuration_text "COD" "100") (Some "50.00") methods)
           (Some (JStr "COD")) (Some (JNum hundred)) "COD").
  - eexists; repeat split; vm_compute; reflexivity.
  - reflexivity.
Defined.

(** * Names outside ASCII

    The search of [includes] goes by code units, so half of a character
    of two units is found inside it. *)

Example surrogate_configuration_is_read :
  JSON_parse surrogate_configuration
  = Normal (JObj [("paymentMethodName", JStr (String_fromCharCode [55357%N]));
                  ("cartTotal", JNum hundred)]).
Proof. vm_compute; reflexivity. Qed.

Example escaped_pair_is_one_character :
  JSON_parse (quoted "\ud83d\ude00 Pay")
  = Normal (JStr (name grinning_pay)).
Proof. vm_compute; reflexivity. Qed.

Example lone_surrogate_is_found :
  run (checkout surrogate_configuration (Some "50.00")
         [credit_card; grinning_pay])
  = ([], Normal (move_first grinning_pay)).
Proof. vm_compute; reflexivity. Qed.

Example first_of_two_is_moved :
  run (checkout surrogate_configuration (Some "50.00")
         [grinning_pay; surrogate_pay])
  = ([], Normal (move_first grinning_pay))
  /\ run (checkout surrogate_configuration (Some "50.00")
            [surrogate_pay; grinning_pay])
     = ([], Normal (move_first surrogate_pay)).
Proof. split; vm_compute; reflexivity. Qed.

(** * Settings and customizations of other shapes *)

(** An object with a [toString] of its own that is no function converts
    to nothing.  As the total it makes the comparison throw; as the name
    it makes the search throw, when there is a method to look at. *)
Example unconvertible_settings_throw :
  run (checkout
         ("{" ++ quoted "paymentMethodName" ++ ":" ++ quoted "COD" ++ ","
          ++ quoted "cartTotal" ++ ":{" ++ quoted "toString" ++ ":1}}")
         (Some "50.00") methods)
  = ([], Throw TypeError)
  /\ run (checkout
            ("{" ++ quoted "paymentMethodName" ++ ":{" ++ quoted "toString"
             ++ ":1}," ++ quoted "cartTotal" ++ ":100}")
            (Some "50.00") methods)
     = ([], Throw TypeError)
  /\ run (checkout
            ("{" ++ quoted "paymentMethodName" ++ ":{" ++ quoted "toString"
             ++ ":1}," ++ quoted "cartTotal" ++ ":100}")
            (Some "50.00") [])
     = ([], Normal NO_CHANGES).
Proof. repeat split; vm_compute; reflexivity. Qed.

(** A customization without an [id] is configured all the same, under the
    id [undefined]. *)
Example customization_without_id_is_configured :
  create
    (api (Normal (answer "paymentCustomizationCreate"
                    (JObj [("paymentCustomization", JObj []);
                           ("userErrors", JArr [])])))
       (Normal (metafields_set [])))
    form start
  = ({| queries :=
          [form_create;
           MetafieldsSet None (Some (JStr "COD"))
             (Some (JNum (Number.of_decimal false 100 0)))];
        response := Some {| status := 200; body := NoBody |} |},
     Normal tt).
Proof. vm_compute; reflexivity. Qed.
